(** * crossfitgames.api.api_calls: a shallow embedding

    The module [api_calls.py] walks the paginated CrossFit Games
    leaderboard API and assembles pandas tables.  This file embeds its
    seven functions as Rocq functions over

    - a type [pyval] of the Python values that appear (the values
      [response.json()] produces, and the arguments callers pass);
    - a type [exn] of the exceptions raised (all of them instances of
      Python's [Exception]);
    - a state made of the outside world the HTTP client talks to, the
      list of URLs requested so far, and the log;
    - a table type standing for [pandas.DataFrame].

    Strings are Rocq strings, read as ASCII text. *)

From Stdlib Require Import ZArith List String Ascii Bool Lia.
From Stdlib Require Import Floats.SpecFloat.
From Stdlib Require Import DecimalString.
Import ListNotations.
Local Open Scope string_scope.
Local Open Scope list_scope.
Local Open Scope Z_scope.

Set Implicit Arguments.
Set Warnings "-register-all".

(** ** Python values *)

Inductive pyval : Type :=
| PNone
| PBool (b : bool)
| PInt (z : Z)
| PFloat (f : spec_float)
| PStr (s : string)
| PList (l : list pyval)
| PDict (kv : list (string * pyval)).

(** The missing-value marker pandas puts in a cell that has no value. *)
Definition NaN : pyval := PFloat S754_nan.

(** ** Exceptions

    Every constructor is a subclass of [Exception]; [RequestException]
    stands for the whole [requests.exceptions] family and [KeyError]
    carries the missing key. *)

Inductive exn : Type :=
| KeyError (key : pyval)
| IndexError
| TypeError (msg : string)
| ValueError (msg : string)
| OverflowError
| NameError (name : string)
| NotImplementedError
| RequestException (kind : string)
| OtherException (cls : string).

Definition is_KeyError (e : exn) : bool :=
  match e with KeyError _ => true | _ => false end.

Definition is_RequestException (e : exn) : bool :=
  match e with RequestException _ => true | _ => false end.

Inductive result (A : Type) : Type :=
| Ok (a : A)
| Err (e : exn).
Arguments Err {A} e.

Definition is_Ok {A} (r : result A) : bool :=
  match r with Ok _ => true | Err _ => false end.

(** ** Core operations of the language *)

(** [isinstance(v, int)]: [bool] is a subclass of [int]. *)
Definition isinstance_int (v : pyval) : bool :=
  match v with PInt _ | PBool _ => true | _ => false end.

(** The integer an [int] instance denotes in arithmetic and in [range]. *)
Definition as_int (v : pyval) : option Z :=
  match v with
  | PInt z => Some z
  | PBool b => Some (if b then 1 else 0)
  | _ => None
  end.

(** The exact integer value of a float, when it has one. *)
Definition float_as_Z (f : spec_float) : option Z :=
  match f with
  | S754_zero _ => Some 0
  | S754_finite s m e =>
      let mag := if 0 <=? e then Some (Z.pos m * 2 ^ e)
                 else if Z.pos m mod 2 ^ (- e) =? 0 then Some (Z.pos m / 2 ^ (- e))
                 else None in
      option_map (fun a => if s then - a else a) mag
  | _ => None
  end.

(** [v == n] for an integer literal [n]. *)
Definition py_eq_int (v : pyval) (n : Z) : bool :=
  match v with
  | PInt z => z =? n
  | PBool b => (if b then 1 else 0) =? n
  | PFloat f => match float_as_Z f with Some z => z =? n | None => false end
  | _ => false
  end.

(** [v == s] for a string literal [s]. *)
Definition py_eq_str (v : pyval) (s : string) : bool :=
  match v with PStr t => String.eqb t s | _ => false end.

(** [range(a, b)] and [range(n)]. *)
Definition py_range (a b : Z) : list Z :=
  map (fun i => a + Z.of_nat i) (seq 0 (Z.to_nat (b - a))).

Definition range0 (n : Z) : list Z := py_range 0 n.

Fixpoint assoc (k : string) (kv : list (string * pyval)) : option pyval :=
  match kv with
  | [] => None
  | (k', v) :: rest => if String.eqb k' k then Some v else assoc k rest
  end.

Fixpoint string_get (n : nat) (s : string) : option ascii :=
  match s, n with
  | EmptyString, _ => None
  | String c _, O => Some c
  | String _ s', S n' => string_get n' s'
  end.

(** [v[k]] for a string key. *)
Definition getitem_str (v : pyval) (k : string) : result pyval :=
  match v with
  | PDict kv => match assoc k kv with Some x => Ok x | None => Err (KeyError (PStr k)) end
  | PList _ => Err (TypeError "list indices must be integers or slices, not str")
  | PStr _ => Err (TypeError "string indices must be integers")
  | _ => Err (TypeError "object is not subscriptable")
  end.

(** [v[i]] for an integer index; a negative index counts from the end. *)
Definition getitem_int (v : pyval) (i : Z) : result pyval :=
  match v with
  | PList l =>
      let j := if i <? 0 then i + Z.of_nat (List.length l) else i in
      if j <? 0 then Err IndexError
      else match nth_error l (Z.to_nat j) with Some x => Ok x | None => Err IndexError end
  | PStr s =>
      let j := if i <? 0 then i + Z.of_nat (String.length s) else i in
      if j <? 0 then Err IndexError
      else match string_get (Z.to_nat j) s with
           | Some c => Ok (PStr (String c EmptyString))
           | None => Err IndexError
           end
  | PDict _ => Err (KeyError (PInt i))
  | _ => Err (TypeError "object is not subscriptable")
  end.

(** [len(v)]. *)
Definition py_len (v : pyval) : result Z :=
  match v with
  | PList l => Ok (Z.of_nat (List.length l))
  | PDict kv => Ok (Z.of_nat (List.length kv))
  | PStr s => Ok (Z.of_nat (String.length s))
  | _ => Err (TypeError "object has no len()")
  end.

(** [f"{v}"] for an [int] instance. *)
Definition format_int (v : pyval) : string :=
  match v with
  | PInt z => NilZero.string_of_int (Z.to_int z)
  | PBool true => "True"
  | PBool false => "False"
  | _ => ""
  end.

(** ** Text: [re.findall(r'\d+', x)] and [int(x)] *)

Definition is_digit (c : ascii) : bool :=
  let n := nat_of_ascii c in (48 <=? n)%nat && (n <=? 57)%nat.

Definition digit_val (c : ascii) : Z := Z.of_nat (nat_of_ascii c) - 48.

(** The maximal runs of digits of [s], left to right.  [cur] is the
    run being read, in reverse. *)
Fixpoint digit_runs (s : string) (cur : list ascii) : list string :=
  let flush := match cur with
               | [] => []
               | _ => [string_of_list_ascii (rev cur)]
               end in
  match s with
  | EmptyString => flush
  | String c s' =>
      if is_digit c then digit_runs s' (c :: cur)
      else flush ++ digit_runs s' []
  end.

(** [re.findall(r'\d+', x)]: a list of strings, or [TypeError] when [x]
    is not a string. *)
Definition re_findall_digits (x : pyval) : result pyval :=
  match x with
  | PStr s => Ok (PList (map PStr (digit_runs s [])))
  | _ => Err (TypeError "expected string or bytes-like object")
  end.

(** White space as [int()] strips it. *)
Definition is_space (c : ascii) : bool :=
  let n := nat_of_ascii c in
  (n =? 32)%nat || ((9 <=? n)%nat && (n <=? 13)%nat) || ((28 <=? n)%nat && (n <=? 31)%nat).

Fixpoint lstrip (l : list ascii) : list ascii :=
  match l with
  | c :: l' => if is_space c then lstrip l' else l
  | [] => []
  end.

Definition strip (l : list ascii) : list ascii := rev (lstrip (rev (lstrip l))).

(** Digits with single underscores between them; [prev_digit] says
    whether the character before was a digit. *)
Fixpoint parse_digits (l : list ascii) (acc : Z) (prev_digit : bool) : option Z :=
  match l with
  | [] => if prev_digit then Some acc else None
  | c :: l' =>
      if is_digit c then parse_digits l' (10 * acc + digit_val c) true
      else if (nat_of_ascii c =? 95)%nat && prev_digit
           then match l' with
                | d :: _ => if is_digit d then parse_digits l' acc false else None
                | [] => None
                end
           else None
  end.

Definition int_of_string (s : string) : option Z :=
  match strip (list_ascii_of_string s) with
  | c :: l =>
      if (nat_of_ascii c =? 45)%nat then option_map Z.opp (parse_digits l 0 false)
      else if (nat_of_ascii c =? 43)%nat then parse_digits l 0 false
      else parse_digits (c :: l) 0 false
  | [] => None
  end.

(** Truncation of a float towards zero, as [int(f)] does it. *)
Definition float_trunc (f : spec_float) : result Z :=
  match f with
  | S754_zero _ => Ok 0
  | S754_finite s m e =>
      let mag := if 0 <=? e then Z.pos m * 2 ^ e else Z.pos m / 2 ^ (- e) in
      Ok (if s then - mag else mag)
  | S754_infinity _ => Err OverflowError
  | S754_nan => Err (ValueError "cannot convert float NaN to integer")
  end.

(** One cell of [Series.astype('int')] on a column of Python objects:
    numpy converts each object with [int()] and stores it in 64 bits; a
    list is refused ("setting an array element with a sequence"). *)
Definition astype_int_cell (v : pyval) : result pyval :=
  let store (z : Z) :=
    if (- 2 ^ 63 <=? z) && (z <? 2 ^ 63) then Ok (PInt z) else Err OverflowError in
  match v with
  | PInt z => store z
  | PBool b => Ok (PInt (if b then 1 else 0))
  | PFloat f => match float_trunc f with Ok z => store z | Err e => Err e end
  | PStr s => match int_of_string s with
              | Some z => store z
              | None => Err (ValueError "invalid literal for int() with base 10")
              end
  | PNone => Err (TypeError "int() argument must be a string, a bytes-like object or a real number")
  | PList _ => Err (ValueError "setting an array element with a sequence.")
  | PDict _ => Err (TypeError "int() argument must be a string, a bytes-like object or a real number")
  end.

(** [f] applied to each element in order, stopping at the first
    exception. *)
Fixpoint map_result {A B} (f : A -> result B) (l : list A) : result (list B) :=
  match l with
  | [] => Ok []
  | a :: l' =>
      match f a with
      | Err e => Err e
      | Ok b => match map_result f l' with
                | Err e => Err e
                | Ok bs => Ok (b :: bs)
                end
      end
  end.

(** ** Tables ([pandas.DataFrame])

    A table is its column labels, in order, and its rows; a row maps
    labels to cells, and a label a row does not mention is a [NaN]
    cell. *)

Definition row : Type := list (string * pyval).

Record table : Type := { columns : list string; rows : list row }.

(** [pd.DataFrame()]. *)
Definition empty_table : table := {| columns := []; rows := [] |}.

Definition mem (c : string) (l : list string) : bool := existsb (String.eqb c) l.

Definition row_get (c : string) (r : row) : pyval :=
  match assoc c r with Some v => v | None => NaN end.

Definition row_set (c : string) (v : pyval) (r : row) : row :=
  filter (fun kv => negb (String.eqb (fst kv) c)) r ++ [(c, v)].

Definition add_column (c : string) (cols : list string) : list string :=
  if mem c cols then cols else cols ++ [c].

(** [pd.concat([a, b], ignore_index=True)]. *)
Definition concat (a b : table) : table :=
  {| columns := columns a ++ filter (fun c => negb (mem c (columns a))) (columns b);
     rows := rows a ++ rows b |}.

(** [df[c]]. *)
Definition df_getitem (df : table) (c : string) : result (list pyval) :=
  if mem c (columns df) then Ok (map (row_get c) (rows df))
  else Err (KeyError (PStr c)).

(** [df[c] = series], for a series that has one cell per row of [df]. *)
Definition df_set_series (df : table) (c : string) (cells : list pyval) : table :=
  {| columns := add_column c (columns df);
     rows := map (fun rc => row_set c (snd rc) (fst rc)) (combine (rows df) cells) |}.

(** [df[c] = v] for a scalar [v]: every row gets [v]. *)
Definition df_set_scalar (df : table) (c : string) (v : pyval) : table :=
  {| columns := add_column c (columns df);
     rows := map (row_set c v) (rows df) |}.

(** [df.loc[mask, c] = v] for a scalar [v] and a boolean mask with one
    entry per row.  A column that does not exist yet is created, which
    pandas refuses on a table without rows. *)
Definition df_loc_set (df : table) (mask : list bool) (c : string) (v : pyval)
  : result table :=
  if negb (mem c (columns df)) && (Nat.eqb (List.length (rows df)) 0)
  then Err (ValueError "cannot set a frame with no defined index and a scalar")
  else Ok {| columns := add_column c (columns df);
             rows := map (fun rm : row * bool => if snd rm then row_set c v (fst rm) else fst rm)
                         (combine (rows df) mask) |}.

(** [pd.DataFrame([values], columns=cols)]: one row. *)
Definition DataFrame_row (cols : list string) (values : list pyval) : table :=
  {| columns := cols; rows := [combine cols values] |}.

(** ** Logging, the HTTP client and the state *)

Inductive level : Type := DEBUG | INFO | ERROR | CRITICAL.

(** A log record: severity, the text of the message as the source has
    it (placeholders left in), the values put into the placeholders, and
    the exception reported, if any. *)
Record log_entry : Type :=
  { lvl : level; msg : string; args : list pyval; cause : option exn }.

(** What [requests.get] hands back: [raise_for_status] is the exception
    [response.raise_for_status()] raises, if any, and [json] is what
    [response.json()] returns or raises. *)
Record Response : Type :=
  { raise_for_status : option exn; json : result pyval }.

(** The columns of the accumulated metadata table. *)
Definition games_info_columns : list string :=
  ["competitionId"; "totalPages"; "totalCompetitors"; "totalEvents"; "year"; "division"].

(** The list [games_info] returns, by position. *)
Record info : Type :=
  { competition_id : pyval; total_pages : pyval;
    total_competitors : pyval; total_events : pyval }.

(** What the program takes from outside.

    - [requests_get w url]: the answer to a GET of [url] in world [w],
      and the world afterwards.
    - [convert_object_columns_to_numeric], [lb_to_kg], [inch_to_cm]: the
      helpers of [crossfitgames.utils.transformation_functions], a module
      whose source is not at hand.
    - [json_normalize x] is [pd.json_normalize(x)]; [DataFrame_of_other x]
      is [pd.DataFrame([x])] when [x] is not a dict; and
      [setitem_listlike df c x] is [df[c] = x] when [x] is a list or a
      dict. *)
Record externals (W : Type) : Type :=
  { requests_get : W -> string -> result Response * W;
    convert_object_columns_to_numeric : table -> result table;
    lb_to_kg : pyval -> result pyval;
    inch_to_cm : pyval -> result pyval;
    json_normalize : pyval -> result table;
    DataFrame_of_other : pyval -> result table;
    setitem_listlike : table -> string -> pyval -> result table }.

(** The global state: the world, the URLs requested so far and the
    log, both oldest first. *)
Record state (W : Type) : Type :=
  { world : W; sent : list string; log : list log_entry }.

(** The local variables of a function body that outlive an exception:
    the table being accumulated and the loop variable [div]. *)
Record frame : Type := { df : table; div : option Z }.

(** ** Computations

    A computation reads and writes a state and returns a value or
    raises.  Function bodies run on a frame paired with the global
    state, so that what a body assigned before it raised is kept. *)

Definition M (S A : Type) : Type := S -> result A * S.

Definition ret {S A} (a : A) : M S A := fun s => (Ok a, s).

Definition raise {S A} (e : exn) : M S A := fun s => (Err e, s).

Definition bind {S A B} (c : M S A) (k : A -> M S B) : M S B :=
  fun s => match c s with
           | (Ok a, s') => k a s'
           | (Err e, s') => (Err e, s')
           end.

Definition lift {S A} (r : result A) : M S A := fun s => (r, s).

(** [try: body  except Exception as e: handler e]. *)
Definition try_except {S A} (body : M S A) (handler : exn -> M S A) : M S A :=
  fun s => match body s with
           | (Ok a, s') => (Ok a, s')
           | (Err e, s') => handler e s'
           end.

(** [for x in l: body x]. *)
Fixpoint for_each {S} (l : list Z) (body : Z -> M S unit) : M S unit :=
  match l with
  | [] => ret tt
  | x :: l' => bind (body x) (fun _ => for_each l' body)
  end.

(** A computation that touches no state, run for its result. *)
Definition pure_run {A} (c : M unit A) : result A := fst (c tt).

Declare Scope py_scope.
Delimit Scope py_scope with py.
Notation "x <- c ;; k" := (bind c (fun x => k))
  (at level 61, c at next level, right associativity) : py_scope.
Notation "c ;;; k" := (bind c (fun _ => k))
  (at level 61, right associativity) : py_scope.
Local Open Scope py_scope.

Section Program.

Variable W : Type.
Variable E : externals W.

Definition G (A : Type) : Type := M (state W) A.
Definition L (A : Type) : Type := M (frame * state W) A.

(** A call from a function body: the frame is untouched. *)
Definition call {A} (c : G A) : L A :=
  fun s => let (r, st) := c (snd s) in (r, (fst s, st)).

(** A function body run from its initial frame. *)
Definition run_local {A} (f0 : frame) (c : L A) : G A :=
  fun st => let (r, s) := c (f0, st) in (r, snd s).

Definition get_df : L table := fun s => (Ok (df (fst s)), s).

Definition set_df (t : table) : L unit :=
  fun s => (Ok tt, ({| df := t; div := div (fst s) |}, snd s)).

Definition set_div (d : Z) : L unit :=
  fun s => (Ok tt, ({| df := df (fst s); div := Some d |}, snd s)).

(** Reading [div]: a [NameError] when nothing was assigned to it. *)
Definition read_div : L pyval :=
  fun s => match div (fst s) with
           | Some d => (Ok (PInt d), s)
           | None => (Err (NameError "div"), s)
           end.

Definition emit (l : level) (m : string) (a : list pyval) (c : option exn)
  (st : state W) : state W :=
  {| world := world st; sent := sent st;
     log := log st ++ [{| lvl := l; msg := m; args := a; cause := c |}] |}.

Definition logging (l : level) (m : string) (a : list pyval) : G unit :=
  fun st => (Ok tt, emit l m a None st).

Definition logging_exc (l : level) (m : string) (a : list pyval) (e : exn) : G unit :=
  fun st => (Ok tt, emit l m a (Some e) st).

(** [requests.get(url)]. *)
Definition get (url : string) : G Response :=
  fun st => let (r, w) := requests_get E (world st) url in
            (r, {| world := w; sent := sent st ++ [url]; log := log st |}).

(** ** games_json_dump *)

Definition request_url (year division page : pyval) : string :=
  ("https://c3po.crossfit.com/api/leaderboards/v2/competitions/games/"
  ++ format_int year ++ "/leaderboards?division=" ++ format_int division
  ++ "&sort=0&page=" ++ format_int page)%string.

Definition games_json_dump (year division page : pyval) : G pyval :=
  logging INFO "Starting API call for year {year}, division {division} and page {page}"
    [year; division; page] ;;;
  if negb (isinstance_int year) then
    logging ERROR "Invalid type for 'year': Expected int" [] ;;;
    raise (TypeError "year should be an integer")
  else if negb (isinstance_int division) then
    logging ERROR "Invalid type for 'division': Expected int" [] ;;;
    raise (TypeError "division should be an integer")
  else if negb (isinstance_int page) then
    logging ERROR "Invalid type for 'page': Expected int" [] ;;;
    raise (TypeError "page should be an integer")
  else
    let url := request_url year division page in
    logging DEBUG "Request URL: {url}" [PStr url] ;;;
    try_except
      (response <- get url ;;
       match raise_for_status response with
       | Some e => raise e
       | None =>
           logging INFO
             "Successfully fetched data for year {year}, division {division} and page {page}"
             [year; division; page] ;;;
           lift (json response)
       end)
      (fun e =>
         if is_RequestException e then
           logging_exc ERROR "API request failed: {e}" [] e ;;; raise e
         else raise e).

(** ** games_info *)

Definition games_info (year division : pyval) : G info :=
  logging INFO "Fetching games info for year {year} and division {division}"
    [year; division] ;;;
  response <- games_json_dump year division (PInt 1) ;;
  try_except
    (p1 <- lift (getitem_str response "pagination") ;;
     total_pages <- lift (getitem_str p1 "totalPages") ;;
     p2 <- lift (getitem_str response "pagination") ;;
     total_competitors <- lift (getitem_str p2 "totalCompetitors") ;;
     c <- lift (getitem_str response "competition") ;;
     competition_id <- lift (getitem_str c "competitionId") ;;
     o <- lift (getitem_str response "ordinals") ;;
     total_events <- lift (py_len o) ;;
     logging INFO
       "Fetched games metadata: competition_id {competition_id}, total_pages {total_pages}, total_competitors {total_competitors} and total_events {total_events}"
       [competition_id; total_pages; total_competitors; PInt total_events] ;;;
     ret {| competition_id := competition_id; total_pages := total_pages;
            total_competitors := total_competitors;
            total_events := PInt total_events |})
    (fun e =>
       if is_KeyError e then
         logging_exc ERROR "Key missing in response: {e}" [] e ;;; raise e
       else raise e).

(** ** Shared pieces of the aggregators *)

(** [range(year_from, year_too + 1)]. *)
Definition year_range (year_from year_too : pyval) : result (list Z) :=
  match as_int year_from, as_int year_too with
  | Some a, Some b => Ok (py_range a (b + 1))
  | _, _ => Err (TypeError "object cannot be interpreted as an integer")
  end.

(** [range(1, total_pages + 1)]. *)
Definition page_range (total_pages : pyval) : result (list Z) :=
  match as_int total_pages with
  | Some n => Ok (py_range 1 (n + 1))
  | None => Err (TypeError "object cannot be interpreted as an integer")
  end.

Definition Z_lt_float (z : Z) (f : spec_float) : bool :=
  match f with
  | S754_zero _ => z <? 0
  | S754_infinity s => negb s
  | S754_nan => false
  | S754_finite s m e =>
      let v := if s then Z.neg m else Z.pos m in
      if 0 <=? e then z <? v * 2 ^ e else z * 2 ^ (- e) <? v
  end.

(** [page < v] for an integer [page]. *)
Definition py_int_lt (page : Z) (v : pyval) : result bool :=
  match v with
  | PInt z => Ok (page <? z)
  | PBool b => Ok (page <? (if b then 1 else 0))
  | PFloat f => Ok (Z_lt_float page f)
  | _ => Err (TypeError "'<' not supported between instances")
  end.

(** [pd.DataFrame([x])]. *)
Definition DataFrame_of_record (x : pyval) : result table :=
  match x with
  | PDict kv => Ok {| columns := map fst kv; rows := [kv] |}
  | _ => DataFrame_of_other E x
  end.

(** [df[c] = v]. *)
Definition df_setitem (t : table) (c : string) (v : pyval) : result table :=
  match v with
  | PList _ | PDict _ => setitem_listlike E t c v
  | _ => Ok (df_set_scalar t c v)
  end.

(** [df[c] = df[src].apply(f)]. *)
Definition apply_column (f : pyval -> result pyval) (src c : string) (t : table)
  : result table :=
  match df_getitem t src with
  | Err e => Err e
  | Ok cells => match map_result f cells with
                | Err e => Err e
                | Ok cells' => Ok (df_set_series t c cells')
                end
  end.

(** ** games_info_multiple *)

Definition division_value_multiple (division : pyval) : list Z :=
  if py_eq_int division 1 then [1] else if py_eq_int division 2 then [2] else [1; 2].

(** The body of [for div in division_value]. *)
Definition games_info_multiple_division (year d : Z) : L unit :=
  set_div d ;;;
  call (logging INFO "Processing year {year} and division {div}" [PInt year; PInt d]) ;;;
  r <- call (games_info (PInt year) (PInt d)) ;;
  let result_list := [competition_id r; total_pages r; total_competitors r;
                      total_events r; PInt year; PInt d] in
  let temp_df := DataFrame_row games_info_columns result_list in
  t <- get_df ;;
  set_df (concat t temp_df).

(** The body of [for year in range(year_from, year_too + 1)]: a [try]
    around the whole loop over the divisions. *)
Definition games_info_multiple_year (division_value : list Z) (year : Z) : L unit :=
  try_except
    (for_each division_value (games_info_multiple_division year))
    (fun e =>
       d <- read_div ;;
       call (logging_exc ERROR "Error processing year {year} and division {div}: {e}"
               [PInt year; d] e)).

Definition games_info_multiple (year_from year_too division : pyval) : G table :=
  logging INFO
    "Fetching multiple years games info from {year_from} to {year_too} for division {division}"
    [year_from; year_too; division] ;;;
  run_local {| df := {| columns := games_info_columns; rows := [] |}; div := None |}
    (let division_value := division_value_multiple division in
     years <- lift (year_range year_from year_too) ;;
     for_each years (games_info_multiple_year division_value) ;;;
     t <- get_df ;;
     call (logging INFO
             "Completed fetching games info from {year_from} to {year_too} for division {division}. Total records: {len(df_games_info_multiple)}"
             [year_from; year_too; division; PInt (Z.of_nat (List.length (rows t)))]) ;;;
     lift (convert_object_columns_to_numeric E t)).

(** ** games_info_competitors *)

Definition division_value_competitors (division : pyval) : list Z :=
  if py_eq_int division 1 then [1] else if py_eq_int division 2 then [2] else [1; 2].

(** [range(50) if page < info_response[1] else range(info_response[2] % 50)]. *)
Definition competitors_on_page (page : Z) (info_response : info) : result (list Z) :=
  match py_int_lt page (total_pages info_response) with
  | Err e => Err e
  | Ok true => Ok (range0 50)
  | Ok false =>
      match as_int (total_competitors info_response) with
      | Some n => Ok (range0 (n mod 50))
      | None => Err (TypeError "object cannot be interpreted as an integer")
      end
  end.

(** The one-row table [df_temp] the body of
    [for idx in competitors_on_page] builds from row [idx]. *)
Definition competitor_df_temp (response : pyval) (idx : Z) : result table :=
  pure_run
    (l1 <- lift (getitem_str response "leaderboardRows") ;;
     r1 <- lift (getitem_int l1 idx) ;;
     entrant_json <- lift (getitem_str r1 "entrant") ;;
     l2 <- lift (getitem_str response "leaderboardRows") ;;
     r2 <- lift (getitem_int l2 idx) ;;
     overallScore <- lift (getitem_str r2 "overallScore") ;;
     l3 <- lift (getitem_str response "leaderboardRows") ;;
     r3 <- lift (getitem_int l3 idx) ;;
     overallRank <- lift (getitem_str r3 "overallRank") ;;
     df_temp <- lift (DataFrame_of_record entrant_json) ;;
     df_temp <- lift (df_setitem df_temp "overallScore" overallScore) ;;
     lift (df_setitem df_temp "overallRank" overallRank)).

(** The body of [for idx in competitors_on_page]. *)
Definition competitor_row (response : pyval) (idx : Z) : L unit :=
  df_temp <- lift (competitor_df_temp response idx) ;;
  t <- get_df ;;
  set_df (concat t df_temp).

(** The body of [for page in range(1, info_response[1] + 1)], with
    its [try]. *)
Definition competitors_page (year : pyval) (d : Z) (info_response : info) (page : Z)
  : L unit :=
  try_except
    (call (logging INFO "Fetching page {page} for division {div}" [PInt page; PInt d]) ;;;
     response <- call (games_json_dump year (PInt d) (PInt page)) ;;
     idxs <- lift (competitors_on_page page info_response) ;;
     for_each idxs (competitor_row response))
    (fun e =>
       call (logging_exc ERROR "Error processing page {page} for division {div}: {e}"
               [PInt page; PInt d] e)).

(** The body of [for div in division_value], with its [try]. *)
Definition competitors_division (year : pyval) (d : Z) : L unit :=
  set_div d ;;;
  try_except
    (call (logging INFO "Processing division {div}" [PInt d]) ;;;
     info_response <- call (games_info year (PInt d)) ;;
     pages <- lift (page_range (total_pages info_response)) ;;
     for_each pages (competitors_page year d info_response))
    (fun e =>
       call (logging_exc ERROR "Error processing division {div}: {e}" [PInt d] e)).

(** The transformations after the loops, in the order of the source
    lines. *)
Definition competitors_transform (t : table) : result table :=
  match apply_column re_findall_digits "weight" "weight" t with
  | Err e => Err e
  | Ok t1 =>
  match apply_column re_findall_digits "overallRank" "overallRank" t1 with
  | Err e => Err e
  | Ok t2 =>
  match apply_column astype_int_cell "overallRank" "overallRank" t2 with
  | Err e => Err e
  | Ok t3 =>
  match apply_column astype_int_cell "age" "age" t3 with
  | Err e => Err e
  | Ok t4 =>
  match convert_object_columns_to_numeric E t4 with
  | Err e => Err e
  | Ok t5 =>
  match apply_column (inch_to_cm E) "height" "heightInCm" t5 with
  | Err e => Err e
  | Ok t6 => apply_column (lb_to_kg E) "weight" "weightInKg" t6
  end end end end end end.

Definition games_info_competitors (year division : pyval) : G table :=
  logging INFO "Fetching competitor info for year {year} and division {division}"
    [year; division] ;;;
  run_local {| df := empty_table; div := None |}
    (let division_value := division_value_competitors division in
     for_each division_value (competitors_division year) ;;;
     t <- get_df ;;
     t' <- lift (competitors_transform t) ;;
     call (logging INFO "Fetched competitor info. Total competitors: {len(df_games_info_competitors)}"
             [PInt (Z.of_nat (List.length (rows t')))]) ;;;
     ret t').

(** ** games_info_competitor_multiple *)

Definition games_info_competitor_multiple (year_from year_too division : pyval) : G table :=
  logging INFO "Fetching competitors info from {year_from} to {year_too} for division {division}"
    [year_from; year_too; division] ;;;
  run_local {| df := empty_table; div := None |}
    (try_except
       (years <- lift (year_range year_from year_too) ;;
        for_each years (fun year =>
          call (logging INFO "Fetching competitors info {year} for division {division}"
                  [PInt year; division]) ;;;
          df_temp <- call (games_info_competitors (PInt year) division) ;;
          let df_temp := df_set_scalar df_temp "year" (PInt year) in
          t <- get_df ;;
          set_df (concat t df_temp)))
       (fun e =>
          if is_KeyError e then
            call (logging_exc ERROR "Key missing in response: {e}" [] e) ;;; raise e
          else raise e) ;;;
     get_df).

(** ** games_info_scores *)

Definition division_value_scores (division : pyval) : list Z :=
  if py_eq_int division 1 then [1]
  else if py_eq_int division 2 then [2]
  else [1; 2].

(** [total_results - (total_pages - 1) * 50], then [range] of it. *)
Definition last_page_results (total_pages total_results : pyval) : result Z :=
  match as_int total_pages, as_int total_results with
  | Some p, Some r => Ok (r - (p - 1) * 50)
  | _, _ => Err (TypeError "object cannot be interpreted as an integer")
  end.

Definition num_results (page : Z) (total_pages total_results : pyval) : result Z :=
  if py_eq_int total_pages page then last_page_results total_pages total_results
  else Ok 50.

(** The body of [for competitor_idx in range(num_results)], with its
    [try]. *)
Definition score_rows (year : pyval) (current_division : Z) (response : pyval)
  (competitor_idx : Z) : L unit :=
  try_except
    (l1 <- lift (getitem_str response "leaderboardRows") ;;
     r1 <- lift (getitem_int l1 competitor_idx) ;;
     scores_json <- lift (getitem_str r1 "scores") ;;
     df_temp <- lift (json_normalize E scores_json) ;;
     l2 <- lift (getitem_str response "leaderboardRows") ;;
     r2 <- lift (getitem_int l2 competitor_idx) ;;
     en <- lift (getitem_str r2 "entrant") ;;
     competitorId <- lift (getitem_str en "competitorId") ;;
     df_temp <- lift (df_setitem df_temp "competitorId" competitorId) ;;
     df_temp <- lift (df_setitem df_temp "year" year) ;;
     let df_temp := df_set_scalar df_temp "division" (PInt current_division) in
     t <- get_df ;;
     set_df (concat t df_temp))
    (fun e =>
       call (logging_exc ERROR "Error processing competitor index {competitor_idx}: {e}"
               [PInt competitor_idx] e)).

(** The body of [for page in range(1, total_pages + 1)]. *)
Definition scores_page (year : pyval) (current_division : Z)
  (total_pages total_results : pyval) (page : Z) : L unit :=
  call (logging INFO "Fetching data for page {page}." [PInt page]) ;;;
  response <- call (games_json_dump year (PInt current_division) (PInt page)) ;;
  n <- lift (num_results page total_pages total_results) ;;
  for_each (range0 n) (score_rows year current_division response).

(** The body of [for current_division in division_value]. *)
Definition scores_division (year : pyval) (current_division : Z) : L unit :=
  call (logging INFO "Processing division {current_division} for year {year}."
          [PInt current_division; year]) ;;;
  info_response <- call (games_info year (PInt current_division)) ;;
  let total_pages := total_pages info_response in
  let total_results := total_competitors info_response in
  call (logging INFO "Total pages: {total_pages}, Total results: {total_results}."
          [total_pages; total_results]) ;;;
  pages <- lift (page_range total_pages) ;;
  for_each pages (scores_page year current_division total_pages total_results).

Definition rank_sentinels : list string := ["CUT"; "WD"; "DNF"].

(** One cell of [Series.isin(['CUT', 'WD', 'DNF'])]. *)
Definition isin_sentinels (v : pyval) : bool :=
  existsb (py_eq_str v) rank_sentinels.

(** [df.loc[df['rank'] == s, 'rankReason'] = s]. *)
Definition mark_reason (s : string) (t : table) : result table :=
  match df_getitem t "rank" with
  | Err e => Err e
  | Ok cells => df_loc_set t (map (fun v => py_eq_str v s) cells) "rankReason" (PStr s)
  end.

(** [df.loc[df['rank'].isin(['CUT', 'WD', 'DNF']), 'rank'] = 0]. *)
Definition reset_rank (t : table) : result table :=
  match df_getitem t "rank" with
  | Err e => Err e
  | Ok cells => df_loc_set t (map isin_sentinels cells) "rank" (PInt 0)
  end.

(** The four lines that recode the rank column. *)
Definition transform_rank (t : table) : result table :=
  match mark_reason "CUT" t with
  | Err e => Err e
  | Ok t1 =>
  match mark_reason "WD" t1 with
  | Err e => Err e
  | Ok t2 =>
  match mark_reason "DNF" t2 with
  | Err e => Err e
  | Ok t3 => reset_rank t3
  end end end.

Definition scores_transform (t : table) : result table :=
  match transform_rank t with
  | Err e => Err e
  | Ok t1 =>
  match convert_object_columns_to_numeric E t1 with
  | Err e => Err e
  | Ok t2 => apply_column (lb_to_kg E) "scoreDisplay" "scoreIsWeightInKg" t2
  end end.

(** What stands inside the [try] of [games_info_scores]. *)
Definition games_info_scores_body (year : pyval) (division_value : list Z) : L table :=
  for_each division_value (scores_division year) ;;;
  call (logging INFO "Transforming rank and other columns." []) ;;;
  t <- get_df ;;
  t' <- lift (scores_transform t) ;;
  call (logging INFO "Dataframe transformation complete. Returning dataframe." []) ;;;
  ret t'.

Definition games_info_scores (year division : pyval) : G table :=
  run_local {| df := empty_table; div := None |}
    (let division_value := division_value_scores division in
     try_except
       (games_info_scores_body year division_value)
       (fun e =>
          call (logging_exc CRITICAL "Error occurred in games_info_scores: {e}" [] e) ;;;
          ret empty_table)).

(** ** games_info_scores_multiple *)

(** The body of [for year in range(year_from, year_too + 1)], with
    its [try].  The handler's message names [div], which the function
    never assigns. *)
Definition scores_multiple_year (division : pyval) (year : Z) : L unit :=
  try_except
    (call (logging INFO "Fetching games info score for year {year}" [PInt year]) ;;;
     df_temp <- call (games_info_scores (PInt year) division) ;;
     let df_temp := df_set_scalar df_temp "year" (PInt year) in
     t <- get_df ;;
     set_df (concat t df_temp))
    (fun e =>
       d <- read_div ;;
       call (logging_exc ERROR
               "Error processing games info scores for year {year} and division {div}"
               [PInt year; d] e)).

Definition games_info_scores_multiple (year_from year_too division : pyval) : G table :=
  if negb (isinstance_int year_from) then
    raise (TypeError "year_from should be an integer")
  else if negb (isinstance_int year_too) then
    raise (TypeError "year_too should be an integer")
  else if negb (isinstance_int division) then
    raise (TypeError "division should be an integer")
  else
    run_local {| df := empty_table; div := None |}
      (years <- lift (year_range year_from year_too) ;;
       for_each years (scores_multiple_year division) ;;;
       get_df).

End Program.

(** ** Scenarios

    Concrete worlds and stand-ins for the external functions, on which
    the program can be run. *)

(** A world that answers the [n]-th request with the [n]-th entry of a
    script, and with a connection error once the script is used up. *)
Definition scripted (answers : list (result Response)) (n : nat) (url : string)
  : result Response * nat :=
  (nth n answers (Err (RequestException "ConnectionError")), S n).

Definition ok_response (j : pyval) : result Response :=
  Ok {| raise_for_status := None; json := Ok j |}.

Definition page_json (total_pages total_competitors : Z) (leaderboardRows : list pyval)
  : pyval :=
  PDict [("pagination", PDict [("totalPages", PInt total_pages);
                               ("totalCompetitors", PInt total_competitors)]);
         ("competition", PDict [("competitionId", PStr "214")]);
         ("ordinals", PDict [("1", PStr "Event 1")]);
         ("leaderboardRows", PList leaderboardRows)].

Definition athlete_json (competitorId overallRank : string) (scores : list pyval) : pyval :=
  PDict [("entrant", PDict [("competitorId", PStr competitorId);
                            ("height", PStr "72 in"); ("weight", PStr "205 lb");
                            ("age", PStr "28")]);
         ("overallScore", PStr "880"); ("overallRank", PStr overallRank);
         ("scores", PList scores)].

Definition score_json (rank scoreDisplay : string) : pyval :=
  PDict [("ordinal", PInt 1); ("rank", PStr rank); ("scoreDisplay", PStr scoreDisplay)].

Definition dict_row (v : pyval) : row :=
  match v with PDict kv => kv | _ => [] end.

(** A stand-in for [pd.json_normalize] on a list of flat records. *)
Definition demo_json_normalize (x : pyval) : result table :=
  match x with
  | PList l =>
      Ok {| columns := fold_left (fun cols c => add_column c cols)
                         (flat_map (fun v => map fst (dict_row v)) l) [];
            rows := map dict_row l |}
  | _ => Err NotImplementedError
  end.

Definition demo_externals (answers : list (result Response)) : externals nat :=
  {| requests_get := scripted answers;
     convert_object_columns_to_numeric := fun t => Ok t;
     lb_to_kg := fun _ => Ok NaN;
     inch_to_cm := fun _ => Ok NaN;
     json_normalize := demo_json_normalize;
     DataFrame_of_other := fun _ => Err (ValueError "DataFrame constructor not properly called!");
     setitem_listlike := fun _ _ _ =>
       Err (ValueError "Length of values does not match length of index") |}.

Definition start : state nat := {| world := O; sent := []; log := [] |}.

(** A leaderboard of one page with one athlete, ranked "5T" overall,
    who was cut in one event and came fifth in another. *)
Definition one_athlete_page : pyval :=
  page_json 1 1 [athlete_json "7" "5T" [score_json "CUT" "--"; score_json "5" "205 lb"]].

(** Both requests of a one-page division are answered. *)
Definition world_ok : externals nat :=
  demo_externals [ok_response one_athlete_page; ok_response one_athlete_page].

(** The metadata request is answered, the request for the page times
    out. *)
Definition world_page_timeout : externals nat :=
  demo_externals [ok_response one_athlete_page; Err (RequestException "Timeout")].

(** The first request is refused, the next one is answered. *)
Definition world_first_refused : externals nat :=
  demo_externals [Err (RequestException "ConnectionError"); ok_response one_athlete_page].

(** The first answer lacks every key, the next two are complete. *)
Definition world_first_malformed : externals nat :=
  demo_externals [ok_response (PDict []); ok_response one_athlete_page;
                  ok_response one_athlete_page].

(** No request is answered. *)
Definition world_down : externals nat := demo_externals [].

Definition url_2022 (division : Z) : string :=
  request_url (PInt 2022) (PInt division) (PInt 1).

(** The state in which the metadata request has been answered. *)
Definition after_metadata : state nat := {| world := 1%nat; sent := []; log := [] |}.

Definition one_page_info : info :=
  {| competition_id := PStr "214"; total_pages := PInt 1;
     total_competitors := PInt 1; total_events := PInt 1 |}.

(** The one-row table built from the athlete of [one_athlete_page]. *)
Definition athlete_table : table :=
  {| columns := ["competitorId"; "height"; "weight"; "age"; "overallScore"; "overallRank"];
     rows := [[("competitorId", PStr "7"); ("height", PStr "72 in");
               ("weight", PStr "205 lb"); ("age", PStr "28");
               ("overallScore", PStr "880"); ("overallRank", PStr "5T")]] |}.

(** A division of 60 athletes on two pages: its first page, with 50
    rows, and a world that answers the metadata request and the request
    for that page. *)
Definition full_first_page : pyval :=
  page_json 2 60 (repeat (athlete_json "7" "5T" []) 50).

Definition world_full_page : externals nat :=
  demo_externals [ok_response full_first_page; ok_response full_first_page].

(** A division of 51 athletes on two pages, in a world where the
    request for page 1 times out and the request for page 2, which
    holds one row, is answered. *)
Definition last_page_of_51 : pyval := page_json 2 51 [athlete_json "7" "5T" []].

Definition info_of_51 : info :=
  {| competition_id := PStr "214"; total_pages := PInt 2;
     total_competitors := PInt 51; total_events := PInt 1 |}.

Definition world_page_1_timeout : externals nat :=
  demo_externals [ok_response last_page_of_51; Err (RequestException "Timeout");
                  ok_response last_page_of_51].

(** The frame and state after the failed page 1 of that division. *)
Definition after_failed_page_1 : frame * state nat :=
  snd (for_each [1] (competitors_page world_page_1_timeout (PInt 2022) 1 info_of_51)
         ({| df := empty_table; div := None |}, after_metadata)).

(** The runs the counterexamples look at. *)
Definition run_page_timeout : result table * state nat :=
  games_info_competitors world_page_timeout (PInt 2022) (PInt 1) start.

Definition run_first_refused : result table * state nat :=
  games_info_multiple world_first_refused (PInt 2022) (PInt 2022) (PInt 0) start.

Definition run_first_malformed : result table * state nat :=
  games_info_scores_multiple world_first_malformed (PInt 2021) (PInt 2022) (PInt 1) start.

Definition run_scores_ok : result table * state nat :=
  games_info_scores world_ok (PInt 2022) (PInt 1) start.

(** The table the loops of that run accumulate, and its first row. *)
Definition scores_loop_table : table :=
  df (fst (snd (for_each (division_value_scores (PInt 1))
                  (scores_division world_ok (PInt 2022))
                  ({| df := empty_table; div := None |}, start)))).

Definition cut_score_row : row := nth 0 (rows scores_loop_table) [].

(** The table of a run, the empty table if the run raised. *)
Definition table_of (r : result table) : table :=
  match r with Ok t => t | Err _ => empty_table end.

(** A page whose only row has no 'scores' key. *)
Definition page_without_scores : pyval :=
  PDict [("leaderboardRows", PList [PDict [("entrant", PDict [("competitorId", PStr "7")])]])].

(** A score table of two rows, one cut and one ranked fifth. *)
Definition two_scores : table :=
  {| columns := ["ordinal"; "rank"; "scoreDisplay"];
     rows := [dict_row (score_json "CUT" "--"); dict_row (score_json "5" "205 lb")] |}.

(** What [games_json_dump] returns for the answer [requests.get] got:
    an exception of the request, an exception of [raise_for_status], or
    what [json()] gives. *)
Definition response_outcome (a : result Response) : result pyval :=
  match a with
  | Err e => Err e
  | Ok r => match raise_for_status r with
            | Some e => Err e
            | None => json r
            end
  end.

(** What the recoding of the rank column does to one row. *)
Definition mark_row (s : string) (r : row) : row :=
  if py_eq_str (row_get "rank" r) s then row_set "rankReason" (PStr s) r else r.

Definition reset_row (r : row) : row :=
  if existsb (py_eq_str (row_get "rank" r)) rank_sentinels
  then row_set "rank" (PInt 0) r else r.

Definition recode_row (r : row) : row :=
  reset_row (mark_row "DNF" (mark_row "WD" (mark_row "CUT" r))).

(** A computation of a function body keeps the rows accumulated so
    far: it may only add rows after them. *)
Definition keeps_rows {W A} (c : M (frame * state W) A) : Prop :=
  forall s, exists extra,
    rows (df (fst (snd (c s)))) = rows (df (fst s)) ++ extra.

(** The frame a function body starts from. *)
Definition frame0 : frame := {| df := empty_table; div := None |}.

(** The number of leaderboard rows the competitor aggregator reads on
    [page], for integer metadata. *)
Definition competitor_rows_on_page (total_pages total_competitors page : Z) : nat :=
  match competitors_on_page page
          {| competition_id := PNone; total_pages := PInt total_pages;
             total_competitors := PInt total_competitors; total_events := PNone |} with
  | Ok idxs => List.length idxs
  | Err _ => O
  end.

(** The number of leaderboard rows the score aggregator reads on
    [page], for integer metadata. *)
Definition score_rows_on_page (total_pages total_competitors page : Z) : nat :=
  match num_results page (PInt total_pages) (PInt total_competitors) with
  | Ok n => List.length (range0 n)
  | Err _ => O
  end.

(** The rows read over all the pages [1 .. total_pages] of a division,
    for a count of rows per page. *)
Definition rows_over_pages (rows_on_page : Z -> nat) (total_pages : Z) : nat :=
  list_sum (map rows_on_page (py_range 1 (total_pages + 1))).

(** A row of the metadata table that belongs to one of the given years
    and divisions. *)
Definition metadata_row_of (years divisions : list Z) (r : row) : Prop :=
  exists y d, In y years /\ In d divisions
              /\ row_get "year" r = PInt y /\ row_get "division" r = PInt d.

(** A computation of a function body keeps the rows accumulated so
    far and adds only rows that satisfy [P]. *)
Definition adds_rows {W A} (P : row -> Prop) (c : M (frame * state W) A) : Prop :=
  forall s, exists extra,
    rows (df (fst (snd (c s)))) = rows (df (fst s)) ++ extra /\ Forall P extra.

(** The numeric conversion, a function from outside, sends a cell [v]
    of column [c] to [v'] and leaves its row where it was. *)
Definition converter_sends {W} (E : externals W) (c : string) (v v' : pyval) : Prop :=
  forall t t' i r,
    convert_object_columns_to_numeric E t = Ok t' ->
    nth_error (rows t) i = Some r -> row_get c r = v ->
    exists r', nth_error (rows t') i = Some r' /\ row_get c r' = v'.

(** The log holds an ERROR record of a failure of division [d]. *)
Definition division_failure_logged {W} (d : Z) (st : state W) : Prop :=
  exists e,
    In {| lvl := ERROR; msg := "Error processing division {div}: {e}";
          args := [PInt d]; cause := Some e |} (log st).

(** A row tagged with a year between [a] and [b]. *)
Definition year_tagged (a b : Z) (r : row) : Prop :=
  exists y, a <= y <= b /\ row_get "year" r = PInt y.

(** * Properties *)

Lemma py_range_length : forall a b, List.length (py_range a b) = Z.to_nat (b - a).
Proof. intros; unfold py_range; now rewrite length_map, length_seq. Qed.

Lemma range0_length : forall n, List.length (range0 n) = Z.to_nat n.
Proof. intros; unfold range0; rewrite py_range_length; f_equal; lia. Qed.

(** ** Pagination *)

Lemma competitors_on_page_ints : forall cid te tp tc page,
  competitors_on_page page
    {| competition_id := cid; total_pages := PInt tp;
       total_competitors := PInt tc; total_events := te |}
  = Ok (range0 (if page <? tp then 50 else tc mod 50)).
Proof.
  intros; unfold competitors_on_page; cbn [py_int_lt total_pages total_competitors as_int].
  now destruct (page <? tp).
Qed.

Lemma competitor_rows_on_page_count : forall tp tc page,
  competitor_rows_on_page tp tc page
  = if page <? tp then 50%nat else Z.to_nat (tc mod 50).
Proof.
  intros; unfold competitor_rows_on_page; rewrite competitors_on_page_ints, range0_length.
  now destruct (page <? tp).
Qed.

(** C4, evaluated where the two aggregators part: with 100 competitors
    on 2 pages, on page 2 the competitor aggregator reads no row
    ([100 mod 50 = 0]) and the score aggregator reads 50
    ([100 - (2 - 1) * 50]). *)
Theorem last_page_counts_differ_on_full_page :
  competitor_rows_on_page 2 100 2 = 0%nat
  /\ score_rows_on_page 2 100 2 = 50%nat
  /\ competitor_rows_on_page 2 100 1 = score_rows_on_page 2 100 1.
Proof. repeat split; reflexivity. Qed.

(** Where the last page is partly filled the two aggregators read the
    same number of rows on every page they visit. *)
Lemma page_counts_agree_on_partial_last_page : forall tp tc page,
  (tp - 1) * 50 <= tc < tp * 50 -> page <= tp ->
  competitor_rows_on_page tp tc page = score_rows_on_page tp tc page.
Proof.
  intros tp tc page H Hle.
  rewrite competitor_rows_on_page_count.
  unfold score_rows_on_page, num_results; cbn [py_eq_int last_page_results as_int].
  destruct (Z.eqb_spec tp page) as [->|Hne].
  - rewrite Z.ltb_irrefl, range0_length. f_equal.
    replace tc with ((tc - (page - 1) * 50) + (page - 1) * 50) at 1 by lia.
    rewrite Z.mod_add by lia. apply Z.mod_small; lia.
  - replace (page <? tp) with true by (symmetry; apply Z.ltb_lt; lia).
    now rewrite range0_length.
Qed.

(** ** Rows read over a whole division *)

Lemma py_range_snoc : forall a b, a <= b -> py_range a (b + 1) = py_range a b ++ [b].
Proof.
  intros a b H. unfold py_range.
  replace (Z.to_nat (b + 1 - a)) with (S (Z.to_nat (b - a))) by lia.
  rewrite seq_S, map_app. cbn [map Nat.add]. do 2 f_equal. lia.
Qed.

Lemma py_range_bounds : forall a b p, In p (py_range a b) -> a <= p < b.
Proof.
  intros a b p H. unfold py_range in H. apply in_map_iff in H as (i & <- & Hi).
  apply in_seq in Hi. lia.
Qed.

Lemma list_sum_constant : forall (f : Z -> nat) c l,
  (forall p, In p l -> f p = c) -> list_sum (map f l) = (c * List.length l)%nat.
Proof.
  intros f c l; induction l as [|p l IH]; intros H; simpl.
  - lia.
  - rewrite (H p (or_introl eq_refl)), IH by (intros q Hq; apply H; now right). lia.
Qed.

Lemma rows_over_pages_split : forall (f : Z -> nat) tp,
  1 <= tp ->
  (forall p, 1 <= p < tp -> f p = 50%nat) ->
  Z.of_nat (rows_over_pages f tp) = 50 * (tp - 1) + Z.of_nat (f tp).
Proof.
  intros f tp Htp Hf. unfold rows_over_pages.
  rewrite py_range_snoc, map_app, list_sum_app by lia.
  rewrite (@list_sum_constant f 50%nat) by (intros p Hp; apply Hf, py_range_bounds, Hp).
  rewrite py_range_length. unfold list_sum. cbn [map fold_right]. lia.
Qed.

Lemma score_rows_on_page_count : forall tp tc page,
  score_rows_on_page tp tc page
  = if tp =? page then Z.to_nat (tc - (tp - 1) * 50) else 50%nat.
Proof.
  intros; unfold score_rows_on_page, num_results; cbn [py_eq_int last_page_results as_int].
  destruct (tp =? page); now rewrite range0_length.
Qed.

(** X1.  When the metadata are consistent (at least one page, the last
    page holding between 0 and 50 rows) the score aggregator reads, over
    the pages of a division, as many rows as totalCompetitors says. *)
Theorem scores_read_every_competitor : forall tp tc,
  1 <= tp -> (tp - 1) * 50 <= tc <= tp * 50 ->
  Z.of_nat (rows_over_pages (score_rows_on_page tp tc) tp) = tc.
Proof.
  intros tp tc Htp Htc. rewrite rows_over_pages_split; [|lia|].
  - rewrite score_rows_on_page_count, Z.eqb_refl. lia.
  - intros p Hp. rewrite score_rows_on_page_count.
    destruct (Z.eqb_spec tp p); [lia|reflexivity].
Qed.

(** X2.  The competitor aggregator reads every competitor of a division
    when the last page is partly filled; when the last page is full
    (totalCompetitors = 50 * totalPages) it reads none of that page and
    falls 50 rows short. *)
Theorem competitors_read_all_but_a_full_last_page : forall tp tc,
  1 <= tp ->
  ((tp - 1) * 50 <= tc < tp * 50 ->
     Z.of_nat (rows_over_pages (competitor_rows_on_page tp tc) tp) = tc)
  /\ (tc = tp * 50 ->
        Z.of_nat (rows_over_pages (competitor_rows_on_page tp tc) tp) = tc - 50).
Proof.
  intros tp tc Htp.
  assert (H : Z.of_nat (rows_over_pages (competitor_rows_on_page tp tc) tp)
              = 50 * (tp - 1) + tc mod 50).
  { rewrite rows_over_pages_split; [|lia|].
    - rewrite competitor_rows_on_page_count, Z.ltb_irrefl.
      pose proof (Z.mod_pos_bound tc 50). lia.
    - intros p Hp. rewrite competitor_rows_on_page_count.
      destruct (Z.ltb_spec p tp); [reflexivity|lia]. }
  split; intros Htc; rewrite H.
  - replace tc with ((tc - (tp - 1) * 50) + (tp - 1) * 50) at 1 by lia.
    rewrite Z.mod_add, Z.mod_small by lia. lia.
  - subst tc. rewrite Z.mod_mul by lia. lia.
Qed.

(** ** Rows and tables *)

Lemma assoc_app : forall k l1 l2,
  assoc k (l1 ++ l2) = match assoc k l1 with Some v => Some v | None => assoc k l2 end.
Proof.
  intros k l1 l2; induction l1 as [|[k' v] l1 IH]; [reflexivity|].
  cbn [app assoc]. now destruct (String.eqb k' k).
Qed.

Lemma assoc_filter_same : forall c r,
  assoc c (filter (fun kv => negb (String.eqb (fst kv) c)) r) = None.
Proof.
  intros c r; induction r as [|[k v] r IH]; [reflexivity|].
  cbn [filter fst]. destruct (String.eqb k c) eqn:Hk; cbn [negb]; [exact IH|].
  cbn [assoc]. now rewrite Hk.
Qed.

Lemma assoc_filter_other : forall c c' r,
  c <> c' ->
  assoc c' (filter (fun kv => negb (String.eqb (fst kv) c)) r) = assoc c' r.
Proof.
  intros c c' r Hne; induction r as [|[k v] r IH]; [reflexivity|].
  cbn [filter fst assoc]. destruct (String.eqb_spec k c) as [->|Hk]; cbn [negb].
  - destruct (String.eqb_spec c c'); [contradiction|exact IH].
  - cbn [assoc]. now rewrite IH.
Qed.

Lemma row_get_set_same : forall c v r, row_get c (row_set c v r) = v.
Proof.
  intros; unfold row_get, row_set. rewrite assoc_app, assoc_filter_same.
  cbn [assoc]. now rewrite String.eqb_refl.
Qed.

Lemma row_get_set_other : forall c c' v r,
  c <> c' -> row_get c' (row_set c v r) = row_get c' r.
Proof.
  intros c c' v r Hne; unfold row_get, row_set.
  rewrite assoc_app, assoc_filter_other by assumption.
  destruct (assoc c' r); [reflexivity|]. cbn [assoc].
  now destruct (String.eqb_spec c c').
Qed.

Lemma mem_add_column : forall c c' cols,
  mem c cols = true -> mem c (add_column c' cols) = true.
Proof.
  intros c c' cols H; unfold add_column. destruct (mem c' cols); [exact H|].
  unfold mem in *. rewrite existsb_app, H. reflexivity.
Qed.

Lemma combine_mask : forall (p : row -> bool) (g : row -> row) (l : list row),
  map (fun rm : row * bool => if snd rm then g (fst rm) else fst rm)
    (combine l (map p l))
  = map (fun r => if p r then g r else r) l.
Proof.
  intros p g l; induction l as [|r l IH]; [reflexivity|].
  cbn [map combine fst snd]. now rewrite IH.
Qed.

Lemma map_result_total : forall A B (f : A -> result B) (g : A -> B) l,
  (forall a, In a l -> f a = Ok (g a)) -> map_result f l = Ok (map g l).
Proof.
  intros A B f g l; induction l as [|a l IH]; intros H; [reflexivity|].
  cbn [map_result map]. rewrite (H a (or_introl eq_refl)), IH; [reflexivity|].
  intros b Hb; apply H; now right.
Qed.

(** ** Recoding the rank column *)

Lemma mark_reason_ok : forall s t,
  mem "rank" (columns t) = true -> rows t <> [] ->
  mark_reason s t
  = Ok {| columns := add_column "rankReason" (columns t);
          rows := map (mark_row s) (rows t) |}.
Proof.
  intros s t Hc Hr. unfold mark_reason, df_getitem, df_loc_set. rewrite Hc.
  destruct (rows t) as [|r rs] eqn:Hrows; [contradiction|].
  cbn [List.length Nat.eqb]. rewrite andb_false_r. f_equal. f_equal.
  rewrite map_map. exact (combine_mask (fun r => py_eq_str (row_get "rank" r) s) _ (r :: rs)).
Qed.

Lemma reset_rank_ok : forall t,
  mem "rank" (columns t) = true ->
  reset_rank t
  = Ok {| columns := add_column "rank" (columns t); rows := map reset_row (rows t) |}.
Proof.
  intros t Hc. unfold reset_rank, df_getitem, df_loc_set. rewrite Hc.
  cbn [negb andb]. f_equal. f_equal. rewrite map_map.
  exact (combine_mask (fun r => isin_sentinels (row_get "rank" r)) _ (rows t)).
Qed.

Lemma mark_row_rank : forall s r, row_get "rank" (mark_row s r) = row_get "rank" r.
Proof.
  intros s r; unfold mark_row. destruct (py_eq_str (row_get "rank" r) s); [|reflexivity].
  apply row_get_set_other. discriminate.
Qed.

Lemma transform_rank_ok : forall t,
  mem "rank" (columns t) = true -> rows t <> [] ->
  exists cols, transform_rank t = Ok {| columns := cols; rows := map recode_row (rows t) |}.
Proof.
  intros t Hc Hr. unfold transform_rank.
  assert (Hne : forall (f : row -> row) (l : list row), l <> [] -> map f l <> []).
  { intros f [|x l] H; [contradiction|discriminate]. }
  rewrite mark_reason_ok by assumption.
  rewrite mark_reason_ok; cbn [columns rows]; auto using mem_add_column.
  rewrite mark_reason_ok; cbn [columns rows]; auto using mem_add_column.
  rewrite reset_rank_ok; cbn [columns rows]; auto using mem_add_column.
  eexists. f_equal. f_equal. rewrite !map_map. reflexivity.
Qed.

(** When the recoding succeeds, it has recoded every row in place. *)
Lemma mark_reason_rows : forall s t t',
  mark_reason s t = Ok t' -> rows t' = map (mark_row s) (rows t).
Proof.
  intros s t t' H. unfold mark_reason, df_getitem in H.
  destruct (mem "rank" (columns t)); [|discriminate]. unfold df_loc_set in H.
  destruct (negb (mem "rankReason" (columns t)) && Nat.eqb (List.length (rows t)) 0);
    [discriminate|].
  inversion H; subst. cbn [rows]. rewrite map_map.
  exact (combine_mask (fun r => py_eq_str (row_get "rank" r) s) _ (rows t)).
Qed.

Lemma reset_rank_rows : forall t t',
  reset_rank t = Ok t' -> rows t' = map reset_row (rows t).
Proof.
  intros t t' H. unfold reset_rank, df_getitem in H.
  destruct (mem "rank" (columns t)); [|discriminate]. unfold df_loc_set in H.
  destruct (negb (mem "rank" (columns t)) && Nat.eqb (List.length (rows t)) 0);
    [discriminate|].
  inversion H; subst. cbn [rows]. rewrite map_map.
  exact (combine_mask (fun r => isin_sentinels (row_get "rank" r)) _ (rows t)).
Qed.

Lemma transform_rank_rows : forall t t',
  transform_rank t = Ok t' -> rows t' = map recode_row (rows t).
Proof.
  intros t t' H. unfold transform_rank in H.
  destruct (mark_reason "CUT" t) as [t1|] eqn:H1; [|discriminate].
  destruct (mark_reason "WD" t1) as [t2|] eqn:H2; [|discriminate].
  destruct (mark_reason "DNF" t2) as [t3|] eqn:H3; [|discriminate].
  rewrite (reset_rank_rows _ H), (mark_reason_rows _ _ H3), (mark_reason_rows _ _ H2),
    (mark_reason_rows _ _ H1), !map_map. reflexivity.
Qed.

Lemma recode_row_sentinel : forall s r,
  In s rank_sentinels -> row_get "rank" r = PStr s ->
  row_get "rank" (recode_row r) = PInt 0
  /\ row_get "rankReason" (recode_row r) = PStr s.
Proof.
  intros s r Hs Hr.
  assert (Hk : forall v x, row_get "rank" (row_set "rankReason" v x) = row_get "rank" x)
    by (intros; apply row_get_set_other; discriminate).
  assert (Hq : forall v x, row_get "rankReason" (row_set "rank" v x) = row_get "rankReason" x)
    by (intros; apply row_get_set_other; discriminate).
  unfold recode_row, reset_row, mark_row.
  cbn in Hs; destruct Hs as [<-|[<-|[<-|[]]]]; rewrite ?Hr; cbn [py_eq_str String.eqb Ascii.eqb Bool.eqb];
    rewrite ?Hk, ?Hr; cbn [py_eq_str String.eqb Ascii.eqb Bool.eqb existsb rank_sentinels orb];
    rewrite ?Hk, ?Hr; cbn [py_eq_str String.eqb Ascii.eqb Bool.eqb existsb rank_sentinels orb];
    rewrite ?Hk, ?Hr; cbn [py_eq_str String.eqb Ascii.eqb Bool.eqb existsb rank_sentinels orb];
    rewrite ?Hq, !row_get_set_same; split; reflexivity.
Qed.

Lemma recode_row_other : forall r,
  (forall s, In s rank_sentinels -> row_get "rank" r <> PStr s) -> recode_row r = r.
Proof.
  intros r H.
  assert (Hf : forall s, In s rank_sentinels -> py_eq_str (row_get "rank" r) s = false).
  { intros s Hs. specialize (H s Hs). unfold py_eq_str.
    destruct (row_get "rank" r); try reflexivity.
    destruct (String.eqb_spec s0 s); [subst; now elim H|reflexivity]. }
  unfold recode_row, reset_row, mark_row.
  rewrite (Hf "CUT") by (cbn; auto). rewrite (Hf "WD") by (cbn; auto).
  rewrite (Hf "DNF") by (cbn; auto). cbn [existsb rank_sentinels].
  rewrite (Hf "CUT") by (cbn; auto). rewrite (Hf "WD") by (cbn; auto).
  rewrite (Hf "DNF") by (cbn; auto). reflexivity.
Qed.

Lemma recode_row_elsewhere : forall c r,
  c <> "rank" -> c <> "rankReason" -> row_get c (recode_row r) = row_get c r.
Proof.
  intros c r H1 H2.
  assert (Hm : forall s x, row_get c (mark_row s x) = row_get c x).
  { intros s x; unfold mark_row. destruct (py_eq_str (row_get "rank" x) s); [|reflexivity].
    apply row_get_set_other; congruence. }
  unfold recode_row, reset_row.
  destruct (existsb _ rank_sentinels); [rewrite row_get_set_other by congruence|];
    now rewrite !Hm.
Qed.

(** On a table that has a rank column and at least one row, the four
    lines that recode the rank succeed and keep the rows in place.  A row
    whose rank is "CUT", "WD" or "DNF" gets that string in rankReason and
    the integer 0 as rank.  Any other row is left as it is.  No other
    column changes. *)
Lemma transform_rank_on_rows : forall t,
  mem "rank" (columns t) = true -> rows t <> [] ->
  exists t',
    transform_rank t = Ok t'
    /\ List.length (rows t') = List.length (rows t)
    /\ forall i r, nth_error (rows t) i = Some r ->
         exists r',
           nth_error (rows t') i = Some r'
           /\ (forall s, In s rank_sentinels -> row_get "rank" r = PStr s ->
                 row_get "rank" r' = PInt 0 /\ row_get "rankReason" r' = PStr s)
           /\ ((forall s, In s rank_sentinels -> row_get "rank" r <> PStr s) ->
                 r' = r
                 /\ row_get "rank" r' = row_get "rank" r
                 /\ (assoc "rankReason" r = None -> row_get "rankReason" r' = NaN))
           /\ (forall c, c <> "rank" -> c <> "rankReason" -> row_get c r' = row_get c r).
Proof.
  intros t Hc Hr. destruct (transform_rank_ok t Hc Hr) as [cols Ht].
  eexists; split; [exact Ht|]. cbn [rows]. split; [apply length_map|].
  intros i r Hi. exists (recode_row r). split; [now apply map_nth_error|].
  split; [|split].
  - intros s Hs Hrank. now apply recode_row_sentinel.
  - intros Hn. rewrite (recode_row_other r Hn). repeat split.
    intros Ha. unfold row_get. now rewrite Ha.
  - intros c H1 H2. now apply recode_row_elsewhere.
Qed.

Section Properties.

Variable W : Type.
Variable E : externals W.

(** ** Stepping through computations *)

Lemma bind_err : forall S A B (c : M S A) (k : A -> M S B) s e s',
  c s = (Err e, s') -> bind c k s = (Err e, s').
Proof. intros * H; unfold bind; now rewrite H. Qed.

Lemma call_run : forall A (c : G W A) (f : frame) (st : state W),
  call c (f, st) = (fst (c st), (f, snd (c st))).
Proof. intros; unfold call; cbn [fst snd]; now destruct (c st). Qed.

(** A [try] whose handler only logs never raises. *)
Lemma try_log_never_raises :
  forall (body : L W unit) l m (a : exn -> list pyval) s,
    fst (try_except body (fun e => call (logging_exc l m (a e) e)) s) = Ok tt.
Proof.
  intros; unfold try_except.
  destruct (body s) as [[[]|e] [f st]]; [reflexivity|].
  now rewrite call_run.
Qed.

(** A loop whose body never raises runs to its end. *)
Lemma for_each_never_raises : forall S (body : Z -> M S unit) l,
  (forall x s, fst (body x s) = Ok tt) ->
  forall s, fst (for_each l body s) = Ok tt.
Proof.
  intros S body l Hb; induction l as [|x l IH]; intros s; [reflexivity|].
  cbn [for_each]; unfold bind. specialize (Hb x s).
  destruct (body x s) as [[[]|e] s']; [apply IH|discriminate].
Qed.

Lemma for_each_cons_continues : forall S (body : Z -> M S unit) x l s,
  fst (body x s) = Ok tt ->
  for_each (x :: l) body s = for_each l body (snd (body x s)).
Proof.
  intros * H; cbn [for_each]; unfold bind.
  destruct (body x s) as [[[]|e] s']; [reflexivity|discriminate].
Qed.

(** ** The score aggregator fails soft *)

Lemma games_info_scores_run : forall year division (st : state W),
  games_info_scores E year division st
  = match games_info_scores_body E year (division_value_scores division) (frame0, st) with
    | (Ok t, s') => (Ok t, snd s')
    | (Err e, s') =>
        (Ok empty_table,
         emit CRITICAL "Error occurred in games_info_scores: {e}" [] (Some e) (snd s'))
    end.
Proof.
  intros; unfold games_info_scores, run_local, try_except; fold frame0.
  destruct (games_info_scores_body E year (division_value_scores division) (frame0, st))
    as [[t|e] [f' st']]; [reflexivity|].
  unfold bind; rewrite call_run; reflexivity.
Qed.

Lemma games_info_scores_returns : forall year division (st : state W),
  exists t, fst (games_info_scores E year division st) = Ok t.
Proof.
  intros; rewrite games_info_scores_run.
  destruct (games_info_scores_body E year (division_value_scores division) (frame0, st))
    as [[t|e] s']; eexists; reflexivity.
Qed.

(** An exception of the first metadata request reaches the handler of
    [games_info_scores]. *)
Lemma scores_body_metadata_failure : forall year d ds (f : frame) (st st1 : state W) e,
  games_info E year (PInt d)
    (emit INFO "Processing division {current_division} for year {year}." [PInt d; year] None st)
  = (Err e, st1) ->
  games_info_scores_body E year (d :: ds) (f, st) = (Err e, (f, st1)).
Proof.
  intros * H. unfold games_info_scores_body.
  apply bind_err. cbn [for_each]. apply bind_err.
  unfold scores_division. unfold bind at 1. rewrite call_run. cbn [logging fst snd].
  apply bind_err. rewrite call_run, H. reflexivity.
Qed.

(** C1.  Whatever year and division are and whatever the requests
    answer, [games_info_scores] returns a table and never raises: when
    the body inside its [try] raises, the function logs the exception at
    critical level and returns the empty table; an exception of the
    metadata request of the first division is one such case. *)
Theorem games_info_scores_fails_soft : forall year division (st : state W),
  (exists t, fst (games_info_scores E year division st) = Ok t)
  /\ (forall e s',
         games_info_scores_body E year (division_value_scores division) (frame0, st)
         = (Err e, s') ->
         games_info_scores E year division st
         = (Ok empty_table,
            emit CRITICAL "Error occurred in games_info_scores: {e}" [] (Some e) (snd s')))
  /\ (forall t s',
         games_info_scores_body E year (division_value_scores division) (frame0, st)
         = (Ok t, s') ->
         games_info_scores E year division st = (Ok t, snd s'))
  /\ (forall e st1,
         games_info E year (PInt (hd 1 (division_value_scores division)))
           (emit INFO "Processing division {current_division} for year {year}."
              [PInt (hd 1 (division_value_scores division)); year] None st)
         = (Err e, st1) ->
         games_info_scores E year division st
         = (Ok empty_table,
            emit CRITICAL "Error occurred in games_info_scores: {e}" [] (Some e) st1)).
Proof.
  intros year division st. split; [apply games_info_scores_returns|].
  split; [|split].
  - intros e s' H. now rewrite games_info_scores_run, H.
  - intros t s' H. now rewrite games_info_scores_run, H.
  - intros e st1 H. rewrite games_info_scores_run.
    assert (Hd : exists d ds, division_value_scores division = d :: ds).
    { unfold division_value_scores.
      destruct (py_eq_int division 1); [|destruct (py_eq_int division 2)]; eauto. }
    destruct Hd as (d & ds & Hd). rewrite Hd in *. cbn [hd] in H.
    erewrite scores_body_metadata_failure by exact H. reflexivity.
Qed.

(** ** Validation in games_json_dump *)

(** C10.  [games_json_dump] raises a [TypeError] without having sent a
    request exactly when one of year, division, page is not an [int];
    with three [int] values it sends one request, to the URL that has
    the three values written into it, and returns what the request
    gives.  Values such as division 7 or page -3 go through. *)
Theorem games_json_dump_validation : forall year division page (st : state W),
  let run := games_json_dump E year division page st in
  let all_int := isinstance_int year && isinstance_int division && isinstance_int page in
  (all_int = false <->
     (exists m, fst run = Err (TypeError m)) /\ sent (snd run) = sent st)
  /\ (all_int = false -> world (snd run) = world st)
  /\ (all_int = true ->
        sent (snd run) = sent st ++ [request_url year division page]
        /\ fst run = response_outcome
                       (fst (requests_get E (world st) (request_url year division page)))
        /\ world (snd run) = snd (requests_get E (world st) (request_url year division page)))
  /\ request_url (PInt 2022) (PInt 7) (PInt (-3))
     = "https://c3po.crossfit.com/api/leaderboards/v2/competitions/games/2022/leaderboards?division=7&sort=0&page=-3".
Proof.
  intros year division page st run all_int.
  assert (Hbad : all_int = false ->
                 (exists m, fst run = Err (TypeError m))
                 /\ sent (snd run) = sent st /\ world (snd run) = world st).
  { subst run all_int; unfold games_json_dump, bind, logging, raise.
    destruct (isinstance_int year); cbn [negb andb].
    2:{ intros _; split; [eexists; reflexivity|split; reflexivity]. }
    destruct (isinstance_int division); cbn [negb andb].
    2:{ intros _; split; [eexists; reflexivity|split; reflexivity]. }
    destruct (isinstance_int page); cbn [negb andb]; [discriminate|].
    intros _; split; [eexists; reflexivity|split; reflexivity]. }
  assert (Hgood : all_int = true ->
        sent (snd run) = sent st ++ [request_url year division page]
        /\ fst run = response_outcome
                       (fst (requests_get E (world st) (request_url year division page)))
        /\ world (snd run) = snd (requests_get E (world st) (request_url year division page))).
  { subst run all_int; unfold games_json_dump, bind, logging, raise, try_except, get,
      response_outcome, lift, logging_exc.
    destruct (isinstance_int year); [|discriminate].
    destruct (isinstance_int division); [|discriminate].
    destruct (isinstance_int page); [|discriminate]. intros _.
    cbn [negb andb emit world sent log].
    destruct (requests_get E (world st) (request_url year division page)) as [[r|e] w];
      cbn [fst snd].
    - destruct (raise_for_status r) as [e|]; cbn.
      + destruct (is_RequestException e); cbn; auto.
      + destruct (json r) as [j|e]; cbn; auto.
        destruct (is_RequestException e); cbn; auto.
    - destruct (is_RequestException e); cbn; auto. }
  split; [|split; [|split; [exact Hgood|reflexivity]]].
  - split.
    + intros H; destruct (Hbad H) as (Hm & Hs & _); split; assumption.
    + intros [_ Hs]. destruct all_int eqn:Ha; [|reflexivity].
      destruct (Hgood eq_refl) as [Hsent _]. rewrite Hsent in Hs.
      apply (f_equal (@List.length string)) in Hs. rewrite length_app in Hs.
      cbn in Hs; lia.
  - intros H; destruct (Hbad H) as (_ & _ & Hw); exact Hw.
Qed.

(** ** One division of one year in the metadata driver *)

Lemma games_info_multiple_division_ok : forall year d (f : frame) (st st1 : state W) i,
  games_info E (PInt year) (PInt d)
    (emit INFO "Processing year {year} and division {div}" [PInt year; PInt d] None st)
  = (Ok i, st1) ->
  games_info_multiple_division E year d (f, st)
  = (Ok tt,
     ({| df := concat (df f)
                 (DataFrame_row games_info_columns
                    [competition_id i; total_pages i; total_competitors i;
                     total_events i; PInt year; PInt d]);
         div := Some d |}, st1)).
Proof.
  intros * H. unfold games_info_multiple_division.
  unfold bind at 1. cbn [set_div fst snd].
  unfold bind at 1. rewrite call_run. cbn [logging fst snd].
  unfold bind at 1. rewrite call_run, H. reflexivity.
Qed.

Lemma games_info_multiple_division_err : forall year d (f : frame) (st st1 : state W) e,
  games_info E (PInt year) (PInt d)
    (emit INFO "Processing year {year} and division {div}" [PInt year; PInt d] None st)
  = (Err e, st1) ->
  games_info_multiple_division E year d (f, st)
  = (Err e, ({| df := df f; div := Some d |}, st1)).
Proof.
  intros * H. unfold games_info_multiple_division.
  unfold bind at 1. cbn [set_div fst snd].
  unfold bind at 1. rewrite call_run. cbn [logging fst snd].
  unfold bind at 1. rewrite call_run, H. reflexivity.
Qed.

(** ** The division parameter *)

(** C6.  The three functions that read [division] expand it alike: 1
    gives [1], 2 gives [2], and every other integer, 0 among them, gives
    [1; 2]; the drivers hand [division] on unchanged.  With [1; 2] the
    metadata driver reaches division 2 of a year only after division 1
    of that year, whose row then stands before the row of division 2. *)
Theorem division_expansion :
  (division_value_multiple (PInt 1) = [1]
   /\ division_value_competitors (PInt 1) = [1]
   /\ division_value_scores (PInt 1) = [1])
  /\ (division_value_multiple (PInt 2) = [2]
      /\ division_value_competitors (PInt 2) = [2]
      /\ division_value_scores (PInt 2) = [2])
  /\ (forall d, d <> 1 -> d <> 2 ->
        division_value_multiple (PInt d) = [1; 2]
        /\ division_value_competitors (PInt d) = [1; 2]
        /\ division_value_scores (PInt d) = [1; 2])
  /\ (forall year (f : frame) (st st1 st2 : state W) i1 i2,
        games_info E (PInt year) (PInt 1)
          (emit INFO "Processing year {year} and division {div}" [PInt year; PInt 1] None st)
        = (Ok i1, st1) ->
        games_info E (PInt year) (PInt 2)
          (emit INFO "Processing year {year} and division {div}" [PInt year; PInt 2] None st1)
        = (Ok i2, st2) ->
        games_info_multiple_year E (division_value_multiple (PInt 0)) year (f, st)
        = (Ok tt,
           ({| df := concat
                       (concat (df f)
                          (DataFrame_row games_info_columns
                             [competition_id i1; total_pages i1; total_competitors i1;
                              total_events i1; PInt year; PInt 1]))
                       (DataFrame_row games_info_columns
                          [competition_id i2; total_pages i2; total_competitors i2;
                           total_events i2; PInt year; PInt 2]);
               div := Some 2 |}, st2))).
Proof.
  split; [repeat split|]. split; [repeat split|]. split.
  - intros d H1 H2.
    unfold division_value_multiple, division_value_competitors, division_value_scores, py_eq_int.
    destruct (Z.eqb_spec d 1); [contradiction|].
    destruct (Z.eqb_spec d 2); [contradiction|]. repeat split.
  - intros year f st st1 st2 i1 i2 H1 H2.
    unfold games_info_multiple_year, try_except.
    cbn [division_value_multiple py_eq_int Z.eqb for_each].
    unfold bind at 1. erewrite games_info_multiple_division_ok by exact H1.
    unfold bind at 1. erewrite games_info_multiple_division_ok by exact H2.
    reflexivity.
Qed.

(** ** The metadata driver isolates years *)

Lemma games_info_multiple_division_sets_div : forall year d (s : frame * state W),
  div (fst (snd (games_info_multiple_division E year d s))) = Some d.
Proof.
  intros year d [f st]. unfold games_info_multiple_division.
  unfold bind at 1. cbn [set_div fst snd].
  unfold bind at 1. rewrite call_run. cbn [logging fst snd].
  unfold bind at 1. rewrite call_run.
  destruct (games_info E (PInt year) (PInt d) _) as [[r|e] st1]; reflexivity.
Qed.

Lemma divisions_raise_after_div_is_set : forall year dv (s s' : frame * state W) e,
  for_each dv (games_info_multiple_division E year) s = (Err e, s') ->
  exists d, div (fst s') = Some d.
Proof.
  intros year dv; induction dv as [|d dv IH]; intros s s' e H; [discriminate|].
  cbn [for_each] in H. unfold bind in H.
  pose proof (games_info_multiple_division_sets_div year d s) as Hd.
  destruct (games_info_multiple_division E year d s) as [[[]|e1] s1].
  - eapply IH; eassumption.
  - inversion H; subst. eauto.
Qed.

Lemma games_info_multiple_year_never_raises : forall dv year (s : frame * state W),
  fst (games_info_multiple_year E dv year s) = Ok tt.
Proof.
  intros dv year s. unfold games_info_multiple_year, try_except.
  destruct (for_each dv (games_info_multiple_division E year) s) as [[[]|e] [f st]] eqn:H;
    [reflexivity|].
  destruct (divisions_raise_after_div_is_set _ _ _ H) as [d Hd]. cbn [fst] in Hd.
  unfold bind, read_div. cbn [fst]. rewrite Hd, call_run. reflexivity.
Qed.

(** C5, as the code has it.  The [try] of the metadata driver stands
    around the loop over the divisions of one year.  An exception for
    division 1 of a year is caught and logged and the year is left:
    division 2 of that year is not requested and gets no row.  An
    exception for division 2 keeps the row of division 1.  In both cases,
    and always, the year's body does not raise and the driver goes on
    with the next year. *)
Theorem games_info_multiple_skips_rest_of_year :
  (forall dv year (s : frame * state W), fst (games_info_multiple_year E dv year s) = Ok tt)
  /\ (forall dv year years (s : frame * state W),
         for_each (year :: years) (games_info_multiple_year E dv) s
         = for_each years (games_info_multiple_year E dv)
             (snd (games_info_multiple_year E dv year s)))
  /\ (forall year (f : frame) (st st1 : state W) e,
         games_info E (PInt year) (PInt 1)
           (emit INFO "Processing year {year} and division {div}" [PInt year; PInt 1] None st)
         = (Err e, st1) ->
         games_info_multiple_year E [1; 2] year (f, st)
         = (Ok tt,
            ({| df := df f; div := Some 1 |},
             emit ERROR "Error processing year {year} and division {div}: {e}"
               [PInt year; PInt 1] (Some e) st1)))
  /\ (forall year (f : frame) (st st1 st2 : state W) i1 e,
         games_info E (PInt year) (PInt 1)
           (emit INFO "Processing year {year} and division {div}" [PInt year; PInt 1] None st)
         = (Ok i1, st1) ->
         games_info E (PInt year) (PInt 2)
           (emit INFO "Processing year {year} and division {div}" [PInt year; PInt 2] None st1)
         = (Err e, st2) ->
         games_info_multiple_year E [1; 2] year (f, st)
         = (Ok tt,
            ({| df := concat (df f)
                        (DataFrame_row games_info_columns
                           [competition_id i1; total_pages i1; total_competitors i1;
                            total_events i1; PInt year; PInt 1]);
                div := Some 2 |},
             emit ERROR "Error processing year {year} and division {div}: {e}"
               [PInt year; PInt 2] (Some e) st2))).
Proof.
  split; [apply games_info_multiple_year_never_raises|]. split; [|split].
  - intros. apply for_each_cons_continues, games_info_multiple_year_never_raises.
  - intros year f st st1 e H1.
    unfold games_info_multiple_year, try_except. cbn [for_each].
    unfold bind at 1. erewrite games_info_multiple_division_err by exact H1.
    unfold bind, read_div. cbn [fst snd div]. rewrite call_run. reflexivity.
  - intros year f st st1 st2 i1 e H1 H2.
    unfold games_info_multiple_year, try_except. cbn [for_each].
    unfold bind at 1. erewrite games_info_multiple_division_ok by exact H1.
    unfold bind at 1. erewrite games_info_multiple_division_err by exact H2.
    unfold bind, read_div. cbn [fst snd div]. rewrite call_run. reflexivity.
Qed.

(** ** The scores driver *)

Lemma scores_multiple_year_never_raises : forall division year (s : frame * state W),
  fst (scores_multiple_year E division year s) = Ok tt.
Proof.
  intros division year [f st]. unfold scores_multiple_year, try_except.
  unfold bind at 1. rewrite call_run. cbn [logging fst snd].
  unfold bind at 1. rewrite call_run.
  destruct (games_info_scores_returns (PInt year) division
              (emit INFO "Fetching games info score for year {year}" [PInt year] None st))
    as [t Ht].
  rewrite Ht. reflexivity.
Qed.

(** C9, as the code has it.  Nothing raised inside a year of the scores
    driver leaves the year: [games_info_scores] has turned it into an
    empty table before the driver sees it.  When the metadata request of
    a year raises (a missing key, for one), the year adds the empty
    table tagged with the year and the loop goes on with the next year;
    with [int] arguments the driver returns a table. *)
Theorem games_info_scores_multiple_does_not_propagate :
  (forall division year (s : frame * state W),
      fst (scores_multiple_year E division year s) = Ok tt)
  /\ (forall division year years (s : frame * state W),
         for_each (year :: years) (scores_multiple_year E division) s
         = for_each years (scores_multiple_year E division)
             (snd (scores_multiple_year E division year s)))
  /\ (forall division year (f : frame) (st st1 : state W) e,
         games_info E (PInt year) (PInt (hd 1 (division_value_scores division)))
           (emit INFO "Processing division {current_division} for year {year}."
              [PInt (hd 1 (division_value_scores division)); PInt year] None
              (emit INFO "Fetching games info score for year {year}" [PInt year] None st))
         = (Err e, st1) ->
         scores_multiple_year E division year (f, st)
         = (Ok tt,
            ({| df := concat (df f) (df_set_scalar empty_table "year" (PInt year));
                div := div f |},
             emit CRITICAL "Error occurred in games_info_scores: {e}" [] (Some e) st1)))
  /\ (forall year_from year_too division (st : state W),
         isinstance_int year_from = true -> isinstance_int year_too = true ->
         isinstance_int division = true ->
         exists t, fst (games_info_scores_multiple E year_from year_too division st) = Ok t).
Proof.
  split; [apply scores_multiple_year_never_raises|]. split; [|split].
  - intros. apply for_each_cons_continues, scores_multiple_year_never_raises.
  - intros division year f st st1 e H.
    unfold scores_multiple_year, try_except.
    unfold bind at 1. rewrite call_run. cbn [logging fst snd].
    unfold bind at 1. rewrite call_run.
    rewrite games_info_scores_run.
    assert (Hd : exists d ds, division_value_scores division = d :: ds).
    { unfold division_value_scores.
      destruct (py_eq_int division 1); [|destruct (py_eq_int division 2)]; eauto. }
    destruct Hd as (d & ds & Hd). rewrite Hd in *. cbn [hd] in H.
    erewrite scores_body_metadata_failure by exact H. reflexivity.
  - intros yf yt division st Hf Ht Hd.
    unfold games_info_scores_multiple. rewrite Hf, Ht, Hd. cbn [negb].
    assert (Hr : exists l, year_range yf yt = Ok l).
    { unfold year_range. destruct yf; try discriminate; destruct yt; try discriminate;
        cbn [as_int]; eauto. }
    destruct Hr as [l Hr]. unfold run_local. rewrite Hr.
    unfold bind at 1. cbn [lift]. unfold bind at 1.
    pose proof (for_each_never_raises (scores_multiple_year E division) l
                  (scores_multiple_year_never_raises division)
                  ({| df := empty_table; div := None |}, st)) as Hl.
    destruct (for_each l (scores_multiple_year E division)
                ({| df := empty_table; div := None |}, st)) as [[[]|e] s']; [|discriminate].
    eexists; reflexivity.
Qed.

(** ** Fault isolation in the competitor aggregator *)

Lemma keeps_rows_bind : forall A B (c : L W A) (k : A -> L W B),
  keeps_rows c -> (forall a, keeps_rows (k a)) -> keeps_rows (bind c k).
Proof.
  intros A B c k Hc Hk s. unfold bind.
  destruct (Hc s) as [x Hx]. destruct (c s) as [[a|e] s1]; cbn [snd] in *.
  - destruct (Hk a s1) as [y Hy]. exists (x ++ y). now rewrite Hy, Hx, app_assoc.
  - now exists x.
Qed.

Lemma keeps_rows_try : forall A (body : L W A) (h : exn -> L W A),
  keeps_rows body -> (forall e, keeps_rows (h e)) -> keeps_rows (try_except body h).
Proof.
  intros A body h Hb Hh s. unfold try_except.
  destruct (Hb s) as [x Hx]. destruct (body s) as [[a|e] s1]; cbn [snd] in *.
  - now exists x.
  - destruct (Hh e s1) as [y Hy]. exists (x ++ y). now rewrite Hy, Hx, app_assoc.
Qed.

Lemma keeps_rows_for_each : forall (body : Z -> L W unit) l,
  (forall x, keeps_rows (body x)) -> keeps_rows (for_each l body).
Proof.
  intros body l Hb; induction l as [|x l IH].
  - intros s; exists []. cbn. now rewrite app_nil_r.
  - cbn [for_each]. apply keeps_rows_bind; [apply Hb|intros _; exact IH].
Qed.

Lemma keeps_rows_call : forall A (c : G W A), keeps_rows (call c).
Proof.
  intros A c [f st]; exists []. rewrite call_run. cbn. now rewrite app_nil_r.
Qed.

Lemma keeps_rows_lift : forall A (r : result A), keeps_rows (lift (S := frame * state W) r).
Proof. intros A r s; exists []. cbn. now rewrite app_nil_r. Qed.

Lemma keeps_rows_set_div : forall d, keeps_rows (set_div (W := W) d).
Proof. intros d s; exists []. cbn. now rewrite app_nil_r. Qed.

Lemma keeps_rows_competitor_row : forall response idx,
  keeps_rows (competitor_row E response idx).
Proof.
  intros response idx s. unfold competitor_row, bind, lift.
  destruct (competitor_df_temp E response idx) as [t|e].
  - exists (rows t). reflexivity.
  - exists []. cbn. now rewrite app_nil_r.
Qed.

Lemma keeps_rows_competitors_page : forall year d info_response page,
  keeps_rows (competitors_page E year d info_response page).
Proof.
  intros. unfold competitors_page. apply keeps_rows_try.
  - apply keeps_rows_bind; [apply keeps_rows_call|intros _].
    apply keeps_rows_bind; [apply keeps_rows_call|intros response].
    apply keeps_rows_bind; [apply keeps_rows_lift|intros idxs].
    apply keeps_rows_for_each. intros; apply keeps_rows_competitor_row.
  - intros e; apply keeps_rows_call.
Qed.

Lemma keeps_rows_competitors_division : forall year d,
  keeps_rows (competitors_division E year d).
Proof.
  intros. unfold competitors_division.
  apply keeps_rows_bind; [apply keeps_rows_set_div|intros _]. apply keeps_rows_try.
  - apply keeps_rows_bind; [apply keeps_rows_call|intros _].
    apply keeps_rows_bind; [apply keeps_rows_call|intros info_response].
    apply keeps_rows_bind; [apply keeps_rows_lift|intros pages].
    apply keeps_rows_for_each. intros; apply keeps_rows_competitors_page.
  - intros e; apply keeps_rows_call.
Qed.

Lemma competitors_page_never_raises : forall year d info_response page (s : frame * state W),
  fst (competitors_page E year d info_response page s) = Ok tt.
Proof.
  intros. unfold competitors_page.
  apply (try_log_never_raises _ ERROR _ (fun _ => [PInt page; PInt d])).
Qed.

Lemma competitors_division_never_raises : forall year d (s : frame * state W),
  fst (competitors_division E year d s) = Ok tt.
Proof.
  intros year d [f st]. unfold competitors_division.
  unfold bind at 1. cbn [set_div fst snd].
  apply (try_log_never_raises _ ERROR _ (fun _ => [PInt d])).
Qed.

Lemma rows_fold_concat : forall temps t,
  rows (fold_left concat temps t) = rows t ++ flat_map rows temps.
Proof.
  intros temps; induction temps as [|x temps IH]; intros t; cbn [fold_left flat_map].
  - now rewrite app_nil_r.
  - rewrite IH. cbn [concat rows]. now rewrite app_assoc.
Qed.

(** The rows of a page are appended one after the other. *)
Lemma competitor_rows_append : forall response idxs temps (f : frame) (st : state W),
  map_result (competitor_df_temp E response) idxs = Ok temps ->
  for_each idxs (competitor_row E response) (f, st)
  = (Ok tt, ({| df := fold_left concat temps (df f); div := div f |}, st)).
Proof.
  intros response idxs; induction idxs as [|i idxs IH]; intros temps f st H.
  - inversion H; subst. cbn. now destruct f.
  - cbn [map_result] in H.
    destruct (competitor_df_temp E response i) as [t|e] eqn:Hi; [|discriminate].
    destruct (map_result (competitor_df_temp E response) idxs) as [ts|e] eqn:Hs;
      [|discriminate].
    inversion H; subst. cbn [for_each]. unfold bind at 1.
    unfold competitor_row at 1. unfold bind, lift. rewrite Hi.
    cbn [get_df set_df fst snd]. fold (bind (S := frame * state W) (A := unit) (B := unit)).
    rewrite (IH ts _ _ eq_refl). reflexivity.
Qed.

Lemma competitors_page_success :
  forall year d info_response page (f : frame) (st st1 : state W) response idxs temps,
    games_json_dump E year (PInt d) (PInt page)
      (emit INFO "Fetching page {page} for division {div}" [PInt page; PInt d] None st)
    = (Ok response, st1) ->
    competitors_on_page page info_response = Ok idxs ->
    map_result (competitor_df_temp E response) idxs = Ok temps ->
    competitors_page E year d info_response page (f, st)
    = (Ok tt, ({| df := fold_left concat temps (df f); div := div f |}, st1)).
Proof.
  intros * Hget Hidx Htemps. unfold competitors_page, try_except.
  unfold bind at 1. rewrite call_run. cbn [logging fst snd].
  unfold bind at 1. rewrite call_run, Hget. cbn [fst snd].
  unfold bind at 1. rewrite Hidx. cbn [lift].
  rewrite (competitor_rows_append _ _ _ _ Htemps). reflexivity.
Qed.

Lemma for_each_app : forall S (body : Z -> M S unit) l1 l2 s,
  (forall x s, fst (body x s) = Ok tt) ->
  for_each (l1 ++ l2) body s = for_each l2 body (snd (for_each l1 body s)).
Proof.
  intros S body l1 l2 s Hb; revert s; induction l1 as [|x l1 IH]; intros s; [reflexivity|].
  cbn [app]. rewrite !for_each_cons_continues by apply Hb. apply IH.
Qed.

(** What [games_info_competitors] is made of: the loops, then the
    transformations outside any handler. *)
Lemma games_info_competitors_run : forall year division (st : state W),
  let s' := snd (for_each (division_value_competitors division) (competitors_division E year)
                   (frame0,
                    emit INFO "Fetching competitor info for year {year} and division {division}"
                      [year; division] None st)) in
  games_info_competitors E year division st
  = match competitors_transform E (df (fst s')) with
    | Ok t' =>
        (Ok t',
         emit INFO "Fetched competitor info. Total competitors: {len(df_games_info_competitors)}"
           [PInt (Z.of_nat (List.length (rows t')))] None (snd s'))
    | Err e => (Err e, snd s')
    end.
Proof.
  intros year division st s'. unfold games_info_competitors.
  unfold bind at 1. cbn [logging]. unfold run_local. fold frame0.
  unfold bind at 1.
  pose proof (for_each_never_raises (competitors_division E year)
                (division_value_competitors division)
                (competitors_division_never_raises year)
                (frame0, emit INFO "Fetching competitor info for year {year} and division {division}"
                           [year; division] None st)) as Hl.
  subst s'.
  destruct (for_each (division_value_competitors division) (competitors_division E year) _)
    as [[[]|e] [f1 st1]]; [|discriminate].
  cbn [fst snd]. unfold bind at 1. cbn [get_df fst snd]. unfold bind at 1. cbn [lift].
  destruct (competitors_transform E (df f1)) as [t'|e]; [|reflexivity].
  unfold bind at 1. rewrite call_run. reflexivity.
Qed.

(** A division whose metadata request fails: the exception is caught
    and logged, the table is as it was. *)
Lemma competitors_division_metadata_failure :
  forall year d (f : frame) (st st1 : state W) e,
    games_info E year (PInt d) (emit INFO "Processing division {div}" [PInt d] None st)
    = (Err e, st1) ->
    competitors_division E year d (f, st)
    = (Ok tt,
       ({| df := df f; div := Some d |},
        emit ERROR "Error processing division {div}: {e}" [PInt d] (Some e) st1)).
Proof.
  intros * H. unfold competitors_division.
  unfold bind at 1. cbn [set_div fst snd df div]. unfold try_except.
  unfold bind at 1. rewrite call_run. cbn [logging fst snd].
  unfold bind at 1. rewrite call_run, H. cbn [fst snd]. now rewrite call_run.
Qed.

(** A page whose request fails: the exception is caught and logged,
    the table is as it was. *)
Lemma competitors_page_fetch_failure :
  forall year d info_response page (f : frame) (st st1 : state W) e,
    games_json_dump E year (PInt d) (PInt page)
      (emit INFO "Fetching page {page} for division {div}" [PInt page; PInt d] None st)
    = (Err e, st1) ->
    competitors_page E year d info_response page (f, st)
    = (Ok tt,
       (f, emit ERROR "Error processing page {page} for division {div}: {e}"
             [PInt page; PInt d] (Some e) st1)).
Proof.
  intros * Hget. unfold competitors_page, try_except.
  unfold bind at 1. rewrite call_run. cbn [logging fst snd].
  unfold bind at 1. rewrite call_run, Hget. cbn [fst snd]. now rewrite call_run.
Qed.

(** Reading the rows of a page stops at the first row that cannot be
    read; the rows read before it are in the table. *)
Lemma competitor_rows_stop : forall response idxs1 i idxs2 temps e (f : frame) (st : state W),
  map_result (competitor_df_temp E response) idxs1 = Ok temps ->
  competitor_df_temp E response i = Err e ->
  for_each (idxs1 ++ i :: idxs2) (competitor_row E response) (f, st)
  = (Err e, ({| df := fold_left concat temps (df f); div := div f |}, st)).
Proof.
  intros response idxs1; induction idxs1 as [|j idxs1 IH];
    intros i idxs2 temps e f st Htemps Hi.
  - inversion Htemps; subst. cbn [app for_each]. unfold bind at 1.
    unfold competitor_row, bind, lift. rewrite Hi. cbn. now destruct f.
  - cbn [map_result] in Htemps.
    destruct (competitor_df_temp E response j) as [t|e1] eqn:Hj; [|discriminate].
    destruct (map_result (competitor_df_temp E response) idxs1) as [ts|e1] eqn:Hs;
      [|discriminate].
    inversion Htemps; subst. cbn [app for_each]. unfold bind at 1.
    unfold competitor_row at 1. unfold bind, lift. rewrite Hj.
    cbn [get_df set_df fst snd]. fold (bind (S := frame * state W) (A := unit) (B := unit)).
    erewrite IH by (try reflexivity; exact Hi). reflexivity.
Qed.

Lemma competitors_page_row_failure :
  forall year d info_response page (f : frame) (st st1 : state W)
         response idxs1 i idxs2 temps e,
    games_json_dump E year (PInt d) (PInt page)
      (emit INFO "Fetching page {page} for division {div}" [PInt page; PInt d] None st)
    = (Ok response, st1) ->
    competitors_on_page page info_response = Ok (idxs1 ++ i :: idxs2) ->
    map_result (competitor_df_temp E response) idxs1 = Ok temps ->
    competitor_df_temp E response i = Err e ->
    competitors_page E year d info_response page (f, st)
    = (Ok tt,
       ({| df := fold_left concat temps (df f); div := div f |},
        emit ERROR "Error processing page {page} for division {div}: {e}"
          [PInt page; PInt d] (Some e) st1)).
Proof.
  intros * Hget Hidx Htemps Hi. unfold competitors_page, try_except.
  unfold bind at 1. rewrite call_run. cbn [logging fst snd].
  unfold bind at 1. rewrite call_run, Hget. cbn [fst snd].
  unfold bind at 1. rewrite Hidx. cbn [lift].
  erewrite competitor_rows_stop by eassumption. now rewrite call_run.
Qed.

(** C2, as the code has it.  In the loops of [games_info_competitors]
    an exception while a page is fetched or read is caught and logged
    and the loop goes on: neither a page nor a division raises, and
    neither removes a row.  A page whose request fails adds an ERROR
    record to the log and leaves the table as it was; a page with a row
    that cannot be read adds an ERROR record and keeps the rows read
    before that row; a division whose metadata request fails adds an
    ERROR record and leaves the table as it was.  Hence the rows of a
    page that was fetched and read in full stand in the accumulated
    table whatever happens on the pages before and after it.  The
    function then hands that table to the transformations, which run
    outside any handler: what they raise leaves the function. *)
Theorem games_info_competitors_isolates_pages :
  (forall year d info_response page (s : frame * state W),
      fst (competitors_page E year d info_response page s) = Ok tt)
  /\ (forall year d (s : frame * state W), fst (competitors_division E year d s) = Ok tt)
  /\ (forall year ds, keeps_rows (for_each ds (competitors_division E year)))
  /\ (forall year d info_response ps1 page ps2 (s : frame * state W) response st1 idxs temps,
         let s1 := snd (for_each ps1 (competitors_page E year d info_response) s) in
         games_json_dump E year (PInt d) (PInt page)
           (emit INFO "Fetching page {page} for division {div}" [PInt page; PInt d] None (snd s1))
         = (Ok response, st1) ->
         competitors_on_page page info_response = Ok idxs ->
         map_result (competitor_df_temp E response) idxs = Ok temps ->
         exists later,
           rows (df (fst (snd (for_each (ps1 ++ page :: ps2)
                                 (competitors_page E year d info_response) s))))
           = rows (df (fst s1)) ++ flat_map rows temps ++ later)
  /\ (forall year division (st : state W),
         let s' := snd (for_each (division_value_competitors division)
                          (competitors_division E year)
                          (frame0,
                           emit INFO
                             "Fetching competitor info for year {year} and division {division}"
                             [year; division] None st)) in
         games_info_competitors E year division st
         = match competitors_transform E (df (fst s')) with
           | Ok t' =>
               (Ok t',
                emit INFO
                  "Fetched competitor info. Total competitors: {len(df_games_info_competitors)}"
                  [PInt (Z.of_nat (List.length (rows t')))] None (snd s'))
           | Err e => (Err e, snd s')
           end)
  /\ (forall year d info_response page (f : frame) (st st1 : state W) e,
         games_json_dump E year (PInt d) (PInt page)
           (emit INFO "Fetching page {page} for division {div}" [PInt page; PInt d] None st)
         = (Err e, st1) ->
         competitors_page E year d info_response page (f, st)
         = (Ok tt,
            (f, emit ERROR "Error processing page {page} for division {div}: {e}"
                  [PInt page; PInt d] (Some e) st1)))
  /\ (forall year d info_response page (f : frame) (st st1 : state W)
             response idxs1 i idxs2 temps e,
         games_json_dump E year (PInt d) (PInt page)
           (emit INFO "Fetching page {page} for division {div}" [PInt page; PInt d] None st)
         = (Ok response, st1) ->
         competitors_on_page page info_response = Ok (idxs1 ++ i :: idxs2) ->
         map_result (competitor_df_temp E response) idxs1 = Ok temps ->
         competitor_df_temp E response i = Err e ->
         competitors_page E year d info_response page (f, st)
         = (Ok tt,
            ({| df := fold_left concat temps (df f); div := div f |},
             emit ERROR "Error processing page {page} for division {div}: {e}"
               [PInt page; PInt d] (Some e) st1)))
  /\ (forall year d (f : frame) (st st1 : state W) e,
         games_info E year (PInt d) (emit INFO "Processing division {div}" [PInt d] None st)
         = (Err e, st1) ->
         competitors_division E year d (f, st)
         = (Ok tt,
            ({| df := df f; div := Some d |},
             emit ERROR "Error processing division {div}: {e}" [PInt d] (Some e) st1))).
Proof.
  split; [apply competitors_page_never_raises|].
  split; [apply competitors_division_never_raises|].
  split; [intros; apply keeps_rows_for_each; intros; apply keeps_rows_competitors_division|].
  split; [|split; [apply games_info_competitors_run|]].
  2:{ split; [exact competitors_page_fetch_failure|].
      split; [exact competitors_page_row_failure|exact competitors_division_metadata_failure]. }
  intros year d info_response ps1 page ps2 s response st1 idxs temps s1 Hget Hidx Htemps.
  rewrite for_each_app by apply competitors_page_never_raises. fold s1.
  rewrite for_each_cons_continues by apply competitors_page_never_raises.
  destruct s1 as [f1 g1] eqn:Hs1. cbn [snd fst] in *.
  erewrite competitors_page_success by eassumption. cbn [snd].
  destruct (keeps_rows_for_each (competitors_page E year d info_response) ps2
              (fun x => keeps_rows_competitors_page year d info_response x)
              ({| df := fold_left concat temps (df f1); div := div f1 |}, st1))
    as [later Hl].
  exists later. rewrite Hl. cbn [fst df]. rewrite rows_fold_concat. now rewrite app_assoc.
Qed.

(** ** Rows read per page *)

Lemma map_result_length : forall A B (f : A -> result B) l l',
  map_result f l = Ok l' -> List.length l' = List.length l.
Proof.
  intros A B f l; induction l as [|a l IH]; intros l' H; cbn [map_result] in H.
  - now inversion H.
  - destruct (f a) as [b|e]; [|discriminate].
    destruct (map_result f l) as [bs|e]; [|discriminate].
    inversion H; subst. cbn. now rewrite (IH bs eq_refl).
Qed.

Lemma try_except_transparent : forall S (body : M S unit) (h : exn -> M S unit) s,
  fst (body s) = Ok tt -> try_except body h s = body s.
Proof.
  intros S body h s H. unfold try_except.
  destruct (body s) as [[[]|e] s']; [reflexivity|discriminate].
Qed.

(** A division whose metadata give an integer totalPages walks the
    pages 1, 2, ..., totalPages, in that order, and nothing else. *)
Lemma competitors_division_walks_pages :
  forall year d (f : frame) (st st1 : state W) info_response tp,
    games_info E year (PInt d) (emit INFO "Processing division {div}" [PInt d] None st)
    = (Ok info_response, st1) ->
    total_pages info_response = PInt tp ->
    competitors_division E year d (f, st)
    = for_each (py_range 1 (tp + 1)) (competitors_page E year d info_response)
        ({| df := df f; div := Some d |}, st1).
Proof.
  intros * Hinfo Htp. unfold competitors_division.
  unfold bind at 1. cbn [set_div fst snd df div].
  rewrite try_except_transparent.
  - unfold bind at 1. rewrite call_run. cbn [logging fst snd].
    unfold bind at 1. rewrite call_run, Hinfo. cbn [fst snd].
    unfold bind at 1. unfold page_range. rewrite Htp. reflexivity.
  - unfold bind at 1. rewrite call_run. cbn [logging fst snd].
    unfold bind at 1. rewrite call_run, Hinfo. cbn [fst snd].
    unfold bind at 1. unfold page_range. rewrite Htp. cbn [as_int lift].
    apply for_each_never_raises. intros; apply competitors_page_never_raises.
Qed.

(** A page that was fetched runs the loop over the indices of
    [competitors_on_page], inside its [try]. *)
Lemma competitors_page_reads_indices :
  forall year d cid te tp tc page (f : frame) (st st1 : state W) response,
    games_json_dump E year (PInt d) (PInt page)
      (emit INFO "Fetching page {page} for division {div}" [PInt page; PInt d] None st)
    = (Ok response, st1) ->
    competitors_page E year d
      {| competition_id := cid; total_pages := PInt tp;
         total_competitors := PInt tc; total_events := te |} page (f, st)
    = try_except
        (for_each (range0 (if page <? tp then 50 else tc mod 50))
           (competitor_row E response))
        (fun e =>
           call (logging_exc ERROR "Error processing page {page} for division {div}: {e}"
                   [PInt page; PInt d] e))
        (f, st1).
Proof.
  intros * Hget. unfold competitors_page, try_except.
  unfold bind at 1. rewrite call_run. cbn [logging fst snd].
  unfold bind at 1. rewrite call_run, Hget. cbn [fst snd].
  unfold bind at 1. rewrite competitors_on_page_ints. reflexivity.
Qed.

(** C3.  A division whose metadata give the integers totalPages and
    totalCompetitors makes the competitor aggregator walk the pages
    1, 2, ..., totalPages, in that order.  On each page that was fetched
    it loops over the indices [0 .. 49] when page < totalPages and over
    [0 .. totalCompetitors mod 50 - 1] on the last page: 50 rows, or
    totalCompetitors mod 50 rows.  A page whose rows at these indices can
    all be read adds one [df_temp] per index, that many in all.  With
    110 competitors on 3 pages the pages are 1, 2, 3 and the counts are
    50, 50, 10. *)
Theorem competitors_rows_per_page :
  (forall cid te tp tc page,
      competitors_on_page page
        {| competition_id := cid; total_pages := PInt tp;
           total_competitors := PInt tc; total_events := te |}
      = Ok (range0 (if page <? tp then 50 else tc mod 50)))
  /\ (forall tp tc page,
         competitor_rows_on_page tp tc page
         = if page <? tp then 50%nat else Z.to_nat (tc mod 50))
  /\ (forall year d cid te tp tc page (f : frame) (st st1 : state W) response temps,
         games_json_dump E year (PInt d) (PInt page)
           (emit INFO "Fetching page {page} for division {div}" [PInt page; PInt d] None st)
         = (Ok response, st1) ->
         map_result (competitor_df_temp E response)
           (range0 (if page <? tp then 50 else tc mod 50)) = Ok temps ->
         competitors_page E year d
           {| competition_id := cid; total_pages := PInt tp;
              total_competitors := PInt tc; total_events := te |} page (f, st)
         = (Ok tt, ({| df := fold_left concat temps (df f); div := div f |}, st1))
         /\ List.length temps = if page <? tp then 50%nat else Z.to_nat (tc mod 50))
  /\ page_range (PInt 3) = Ok [1; 2; 3]
  /\ map (competitor_rows_on_page 3 110) [1; 2; 3] = [50; 50; 10]%nat
  /\ (forall year d (f : frame) (st st1 : state W) info_response tp,
         games_info E year (PInt d) (emit INFO "Processing division {div}" [PInt d] None st)
         = (Ok info_response, st1) ->
         total_pages info_response = PInt tp ->
         competitors_division E year d (f, st)
         = for_each (py_range 1 (tp + 1)) (competitors_page E year d info_response)
             ({| df := df f; div := Some d |}, st1))
  /\ (forall year d cid te tp tc page (f : frame) (st st1 : state W) response,
         games_json_dump E year (PInt d) (PInt page)
           (emit INFO "Fetching page {page} for division {div}" [PInt page; PInt d] None st)
         = (Ok response, st1) ->
         competitors_page E year d
           {| competition_id := cid; total_pages := PInt tp;
              total_competitors := PInt tc; total_events := te |} page (f, st)
         = try_except
             (for_each (range0 (if page <? tp then 50 else tc mod 50))
                (competitor_row E response))
             (fun e =>
                call (logging_exc ERROR "Error processing page {page} for division {div}: {e}"
                        [PInt page; PInt d] e))
             (f, st1)).
Proof.
  split; [exact competitors_on_page_ints|].
  split; [exact competitor_rows_on_page_count|].
  split; [|split; [reflexivity|split; [reflexivity|]]].
  2:{ split; [exact competitors_division_walks_pages|exact competitors_page_reads_indices]. }
  intros year d cid te tp tc page f st st1 response temps Hget Htemps. split.
  - eapply competitors_page_success; [exact Hget|apply competitors_on_page_ints|exact Htemps].
  - rewrite (map_result_length _ _ Htemps), range0_length. now destruct (page <? tp).
Qed.

(** ** The rank cleaning of the competitor aggregator *)

Lemma apply_column_head : forall f c t t' r rs,
  apply_column f c c t = Ok t' -> rows t = r :: rs ->
  exists v rs', f (row_get c r) = Ok v /\ rows t' = row_set c v r :: rs'.
Proof.
  intros f c t t' r rs H Hr. unfold apply_column, df_getitem in H.
  destruct (mem c (columns t)); [|discriminate]. rewrite Hr in H.
  cbn [map map_result] in H. destruct (f (row_get c r)) as [v|e]; [|discriminate].
  destruct (map_result f (map (row_get c) rs)) as [vs|e]; [|discriminate].
  inversion H; subst; clear H. unfold df_set_series. rewrite Hr. cbn. eauto.
Qed.

(** Once a row has been collected the transformations raise: the rank
    cell is the list [re.findall] returned, which [astype('int')]
    refuses. *)
Lemma competitors_transform_raises : forall t,
  rows t <> [] -> exists e, competitors_transform E t = Err e.
Proof.
  intros t Hne. destruct (rows t) as [|r rs] eqn:Hr; [contradiction|].
  unfold competitors_transform.
  destruct (apply_column re_findall_digits "weight" "weight" t) as [t1|e] eqn:H1; [|eauto].
  destruct (apply_column_head _ _ _ H1 Hr) as (v1 & rs1 & _ & Hr1).
  destruct (apply_column re_findall_digits "overallRank" "overallRank" t1) as [t2|e] eqn:H2;
    [|eauto].
  destruct (apply_column_head _ _ _ H2 Hr1) as (v2 & rs2 & Hv2 & Hr2).
  destruct (apply_column astype_int_cell "overallRank" "overallRank" t2) as [t3|e] eqn:H3;
    [|eauto].
  destruct (apply_column_head _ _ _ H3 Hr2) as (v3 & rs3 & Hv3 & _).
  rewrite row_get_set_same in Hv3. unfold re_findall_digits in Hv2.
  destruct (row_get "overallRank" (row_set "weight" v1 r)); try discriminate.
  inversion Hv2; subst. discriminate.
Qed.

(** ** The metadata extractor *)

Lemma games_json_dump_sent : forall year division page (st : state W),
  sent (snd (games_json_dump E year division page st))
  = if isinstance_int year && isinstance_int division && isinstance_int page
    then sent st ++ [request_url year division page] else sent st.
Proof.
  intros. unfold games_json_dump, bind, logging, raise, try_except, get, lift, logging_exc.
  destruct (isinstance_int year); cbn [negb andb]; [|reflexivity].
  destruct (isinstance_int division); cbn [negb andb]; [|reflexivity].
  destruct (isinstance_int page); cbn [negb andb]; [|reflexivity].
  cbn [emit world sent log].
  destruct (requests_get E (world st) (request_url year division page)) as [[r|e] w].
  - destruct (raise_for_status r) as [e|]; cbn.
    + destruct (is_RequestException e); reflexivity.
    + destruct (json r) as [j|e]; cbn; [reflexivity|].
      destruct (is_RequestException e); reflexivity.
  - destruct (is_RequestException e); reflexivity.
Qed.

Lemma games_json_dump_type_error : forall year division page (st : state W),
  isinstance_int year && isinstance_int division && isinstance_int page = false ->
  exists m, fst (games_json_dump E year division page st) = Err (TypeError m).
Proof.
  intros * H. unfold games_json_dump, bind, logging, raise.
  destruct (isinstance_int year); cbn [negb andb] in *; [|eexists; reflexivity].
  destruct (isinstance_int division); cbn [negb andb] in *; [|eexists; reflexivity].
  destruct (isinstance_int page); cbn [negb andb] in *; [discriminate|eexists; reflexivity].
Qed.

(** What follows the request in [games_info] touches neither the world
    nor the list of requests. *)
Lemma games_info_after_request : forall year division (st : state W),
  sent (snd (games_info E year division st))
  = sent (snd (games_json_dump E year division (PInt 1)
                 (emit INFO "Fetching games info for year {year} and division {division}"
                    [year; division] None st)))
  /\ (forall e,
         fst (games_json_dump E year division (PInt 1)
                (emit INFO "Fetching games info for year {year} and division {division}"
                   [year; division] None st)) = Err e ->
         fst (games_info E year division st) = Err e).
Proof.
  intros.
  destruct (games_json_dump E year division (PInt 1)
              (emit INFO "Fetching games info for year {year} and division {division}"
                 [year; division] None st)) as [[response|e] st1] eqn:Hd; cbn [fst snd].
  - split; [|discriminate]. unfold games_info. unfold bind at 1. cbn [logging].
    unfold bind at 1. rewrite Hd.
    unfold try_except, bind, lift, logging, logging_exc, ret, raise.
    repeat match goal with
           | |- context [match getitem_str ?a ?b with _ => _ end] =>
               destruct (getitem_str a b) as [?|[]]; cbn [is_KeyError]; try reflexivity
           | |- context [match py_len ?a with _ => _ end] =>
               destruct (py_len a) as [?|[]]; cbn [is_KeyError]; try reflexivity
           end.
  - assert (Hg : games_info E year division st = (Err e, st1)).
    { unfold games_info. unfold bind at 1. cbn [logging]. unfold bind at 1.
      now rewrite Hd. }
    rewrite Hg. cbn [fst snd]. split; [reflexivity|]. intros e' H; now inversion H.
Qed.

(** X3.  [games_info] issues one request, for page 1 of the division,
    whether it then succeeds or not; when year or division is not an
    [int] it issues none and raises a [TypeError]. *)
Theorem games_info_requests_page_one : forall year division (st : state W),
  (isinstance_int year && isinstance_int division = true ->
     sent (snd (games_info E year division st))
     = sent st ++ [request_url year division (PInt 1)])
  /\ (isinstance_int year && isinstance_int division = false ->
        sent (snd (games_info E year division st)) = sent st
        /\ exists m, fst (games_info E year division st) = Err (TypeError m)).
Proof.
  intros year division st.
  destruct (games_info_after_request year division st) as [Hs He].
  rewrite Hs, games_json_dump_sent. cbn [isinstance_int]. rewrite andb_true_r.
  split; intros H; rewrite H; [reflexivity|]. split; [reflexivity|].
  destruct (games_json_dump_type_error year division (PInt 1)
              (emit INFO "Fetching games info for year {year} and division {division}"
                 [year; division] None st)) as [m Hm].
  { cbn [isinstance_int]. now rewrite andb_true_r. }
  exists m. now apply He.
Qed.

(** X4.  For a response that was fetched, [games_info] raises the
    [KeyError] of a missing 'pagination' key after logging it at ERROR
    level; a response that is not an object at all (JSON null) raises a
    [TypeError] that is not logged; and when [games_info] succeeds, the
    event count it returns is a non-negative integer. *)
Theorem games_info_on_malformed_response : forall year division (st st1 : state W) response,
  games_json_dump E year division (PInt 1)
    (emit INFO "Fetching games info for year {year} and division {division}"
       [year; division] None st)
  = (Ok response, st1) ->
  (forall kv, response = PDict kv -> assoc "pagination" kv = None ->
     games_info E year division st
     = (Err (KeyError (PStr "pagination")),
        emit ERROR "Key missing in response: {e}" [] (Some (KeyError (PStr "pagination"))) st1))
  /\ (response = PNone ->
        games_info E year division st
        = (Err (TypeError "object is not subscriptable"), st1))
  /\ (forall i st2, games_info E year division st = (Ok i, st2) ->
        exists n, total_events i = PInt n /\ 0 <= n).
Proof.
  intros year division st st1 response Hget.
  assert (Hrun : games_info E year division st
                 = try_except
                     (p1 <- lift (getitem_str response "pagination") ;;
                      total_pages <- lift (getitem_str p1 "totalPages") ;;
                      p2 <- lift (getitem_str response "pagination") ;;
                      total_competitors <- lift (getitem_str p2 "totalCompetitors") ;;
                      c <- lift (getitem_str response "competition") ;;
                      competition_id <- lift (getitem_str c "competitionId") ;;
                      o <- lift (getitem_str response "ordinals") ;;
                      total_events <- lift (py_len o) ;;
                      logging INFO
                        "Fetched games metadata: competition_id {competition_id}, total_pages {total_pages}, total_competitors {total_competitors} and total_events {total_events}"
                        [competition_id; total_pages; total_competitors; PInt total_events] ;;;
                      ret {| competition_id := competition_id; total_pages := total_pages;
                             total_competitors := total_competitors;
                             total_events := PInt total_events |})
                     (fun e =>
                        if is_KeyError e then
                          logging_exc ERROR "Key missing in response: {e}" [] e ;;; raise e
                        else raise e) st1).
  { unfold games_info. unfold bind at 1. cbn [logging]. unfold bind at 1.
    now rewrite Hget. }
  split; [|split].
  - intros kv -> Hk. rewrite Hrun. unfold try_except, bind, lift. cbn [getitem_str].
    rewrite Hk. reflexivity.
  - intros ->. rewrite Hrun. reflexivity.
  - intros i st2 H. rewrite Hrun in H.
    unfold try_except, bind, lift, logging, logging_exc, ret, raise in H.
    repeat match type of H with
           | context [match getitem_str ?a ?b with _ => _ end] =>
               destruct (getitem_str a b) as [?|[]]; cbn [is_KeyError] in H; try discriminate
           | context [match py_len ?a with _ => _ end] =>
               destruct (py_len a) as [?|[]] eqn:Hlen; cbn [is_KeyError] in H; try discriminate
           end.
    inversion H; subst; cbn [total_events]. eexists; split; [reflexivity|].
    unfold py_len in Hlen.
    match type of Hlen with
    | match ?v with _ => _ end = _ => destruct v; inversion Hlen; lia
    end.
Qed.

(** ** The scores driver: arguments and year range *)

(** X5.  [games_info_scores_multiple] checks its three arguments first:
    when one of them is not an [int] it raises a [TypeError] and has
    neither sent a request nor written to the log. *)
Theorem games_info_scores_multiple_validates : forall year_from year_too division (st : state W),
  isinstance_int year_from && isinstance_int year_too && isinstance_int division = false ->
  exists m,
    games_info_scores_multiple E year_from year_too division st = (Err (TypeError m), st).
Proof.
  intros * H. unfold games_info_scores_multiple, raise.
  destruct (isinstance_int year_from); cbn [negb andb] in *; [|eexists; reflexivity].
  destruct (isinstance_int year_too); cbn [negb andb] in *; [|eexists; reflexivity].
  destruct (isinstance_int division); cbn [negb andb] in *; [discriminate|eexists; reflexivity].
Qed.

Lemma py_range_empty : forall a b, b <= a -> py_range a b = [].
Proof. intros a b H. unfold py_range. now replace (Z.to_nat (b - a)) with O by lia. Qed.

(** X6.  With year_from above year_too the drivers loop over no year:
    the scores driver returns the empty table and leaves the state as it
    was, the competitor driver returns the empty table, and the metadata
    driver hands the table of six columns and no row to the numeric
    conversion.  None of them sends a request. *)
Theorem drivers_on_empty_year_range : forall a b division (st : state W),
  b < a ->
  (isinstance_int division = true ->
     games_info_scores_multiple E (PInt a) (PInt b) division st = (Ok empty_table, st))
  /\ (fst (games_info_competitor_multiple E (PInt a) (PInt b) division st) = Ok empty_table
      /\ sent (snd (games_info_competitor_multiple E (PInt a) (PInt b) division st)) = sent st)
  /\ (fst (games_info_multiple E (PInt a) (PInt b) division st)
      = convert_object_columns_to_numeric E {| columns := games_info_columns; rows := [] |}
      /\ sent (snd (games_info_multiple E (PInt a) (PInt b) division st)) = sent st).
Proof.
  intros a b division st Hab.
  assert (Hr : year_range (PInt a) (PInt b) = Ok []).
  { unfold year_range. cbn [as_int]. now rewrite py_range_empty by lia. }
  split; [|split].
  - intros Hd. unfold games_info_scores_multiple. cbn [isinstance_int negb]. rewrite Hd.
    cbn [negb]. unfold run_local. rewrite Hr. reflexivity.
  - unfold games_info_competitor_multiple. unfold bind at 1. cbn [logging].
    unfold run_local. rewrite Hr. split; reflexivity.
  - unfold games_info_multiple. unfold bind at 1. cbn [logging].
    unfold run_local. rewrite Hr.
    unfold bind at 1. cbn [lift for_each]. unfold bind at 1. cbn [ret].
    unfold bind at 1. cbn [get_df fst snd df]. unfold bind at 1. rewrite call_run.
    cbn [logging fst snd]. unfold lift.
    destruct (convert_object_columns_to_numeric E _); split; reflexivity.
Qed.

(** ** What the metadata driver accumulates *)

Lemma games_info_multiple_division_keeps : forall Y D y d (f : frame) (st : state W),
  In y Y -> In d D ->
  columns (df f) = games_info_columns ->
  Forall (metadata_row_of Y D) (rows (df f)) ->
  let f' := fst (snd (games_info_multiple_division E y d (f, st))) in
  columns (df f') = games_info_columns
  /\ Forall (metadata_row_of Y D) (rows (df f'))
  /\ (List.length (rows (df f')) <= List.length (rows (df f)) + 1)%nat.
Proof.
  intros Y D y d f st Hy Hd Hc Hr.
  destruct (games_info E (PInt y) (PInt d)
              (emit INFO "Processing year {year} and division {div}" [PInt y; PInt d] None st))
    as [[i|e] st1] eqn:Hg.
  - erewrite games_info_multiple_division_ok by exact Hg. cbn [fst snd df concat columns rows].
    rewrite Hc. split; [reflexivity|]. split.
    + apply Forall_app; split; [exact Hr|]. constructor; [|constructor].
      exists y, d. repeat split; assumption.
    + rewrite length_app. cbn. lia.
  - erewrite games_info_multiple_division_err by exact Hg. cbn [fst snd df].
    split; [exact Hc|]. split; [exact Hr|lia].
Qed.

Lemma games_info_multiple_divisions_keep : forall Y D y ds (s : frame * state W),
  In y Y -> incl ds D ->
  columns (df (fst s)) = games_info_columns ->
  Forall (metadata_row_of Y D) (rows (df (fst s))) ->
  let f' := fst (snd (for_each ds (games_info_multiple_division E y) s)) in
  columns (df f') = games_info_columns
  /\ Forall (metadata_row_of Y D) (rows (df f'))
  /\ (List.length (rows (df f')) <= List.length (rows (df (fst s))) + List.length ds)%nat.
Proof.
  intros Y D y ds; induction ds as [|d ds IH]; intros [f st] Hy Hds Hc Hr.
  - cbn. repeat split; [assumption..|lia].
  - cbn [for_each]. unfold bind.
    destruct (games_info_multiple_division_keeps y d f st Hy (Hds d (or_introl eq_refl)) Hc Hr)
      as (Hc1 & Hr1 & Hl1).
    destruct (games_info_multiple_division E y d (f, st)) as [[[]|e] s1]; cbn [fst snd] in *.
    + destruct (IH s1 Hy (fun x Hx => Hds x (or_intror Hx)) Hc1 Hr1) as (Hc2 & Hr2 & Hl2).
      repeat split; [assumption..|cbn [List.length]; lia].
    + repeat split; [assumption..|cbn [List.length]; lia].
Qed.

Lemma games_info_multiple_year_frame : forall dv y (s : frame * state W),
  df (fst (snd (games_info_multiple_year E dv y s)))
  = df (fst (snd (for_each dv (games_info_multiple_division E y) s))).
Proof.
  intros dv y s. unfold games_info_multiple_year, try_except.
  destruct (for_each dv (games_info_multiple_division E y) s) as [[[]|e] [f st]];
    [reflexivity|].
  unfold bind, read_div. cbn [fst snd]. destruct (div f); [|reflexivity].
  now rewrite call_run.
Qed.

Lemma games_info_multiple_years_keep : forall Y D ys (s : frame * state W),
  incl ys Y ->
  columns (df (fst s)) = games_info_columns ->
  Forall (metadata_row_of Y D) (rows (df (fst s))) ->
  let f' := fst (snd (for_each ys (games_info_multiple_year E D) s)) in
  columns (df f') = games_info_columns
  /\ Forall (metadata_row_of Y D) (rows (df f'))
  /\ (List.length (rows (df f'))
      <= List.length (rows (df (fst s))) + List.length ys * List.length D)%nat.
Proof.
  intros Y D ys; induction ys as [|y ys IH]; intros s Hys Hc Hr.
  - cbn. repeat split; [assumption..|lia].
  - rewrite for_each_cons_continues by apply games_info_multiple_year_never_raises.
    destruct (@games_info_multiple_divisions_keep Y D y D s
                (Hys y (or_introl eq_refl)) (fun x Hx => Hx) Hc Hr) as (Hc1 & Hr1 & Hl1).
    rewrite <- games_info_multiple_year_frame in Hc1, Hr1, Hl1.
    destruct (IH (snd (games_info_multiple_year E D y s))
                (fun x Hx => Hys x (or_intror Hx)) Hc1 Hr1) as (Hc2 & Hr2 & Hl2).
    repeat split; [assumption..|cbn [List.length]; lia].
Qed.

(** X7.  For integer years the metadata driver returns what the numeric
    conversion makes of a table that has exactly the six metadata
    columns, in which every row is tagged with a year of the range and a
    division of the expansion, and that has at most one row per year and
    division. *)
Theorem games_info_multiple_accumulates_tagged_rows : forall a b division (st : state W),
  exists t,
    fst (games_info_multiple E (PInt a) (PInt b) division st)
    = convert_object_columns_to_numeric E t
    /\ columns t = games_info_columns
    /\ Forall (metadata_row_of (py_range a (b + 1)) (division_value_multiple division)) (rows t)
    /\ (List.length (rows t)
        <= List.length (py_range a (b + 1))
           * List.length (division_value_multiple division))%nat.
Proof.
  intros a b division st. unfold games_info_multiple.
  unfold bind at 1. cbn [logging]. unfold run_local.
  unfold year_range. cbn [as_int]. unfold bind at 1. cbn [lift].
  set (s0 := ({| df := {| columns := games_info_columns; rows := [] |}; div := None |},
              emit INFO
                "Fetching multiple years games info from {year_from} to {year_too} for division {division}"
                [PInt a; PInt b; division] None st)).
  destruct (@games_info_multiple_years_keep (py_range a (b + 1))
              (division_value_multiple division) (py_range a (b + 1)) s0
              (fun x Hx => Hx) eq_refl (Forall_nil _)) as (Hc & Hr & Hl).
  pose proof (for_each_never_raises
                (games_info_multiple_year E (division_value_multiple division))
                (py_range a (b + 1))
                (games_info_multiple_year_never_raises (division_value_multiple division)) s0)
    as Hok.
  unfold bind at 1.
  destruct (for_each (py_range a (b + 1))
              (games_info_multiple_year E (division_value_multiple division)) s0)
    as [[[]|e] [f1 st1]]; [|discriminate].
  cbn [fst snd] in *. exists (df f1).
  unfold bind at 1. cbn [get_df fst snd]. unfold bind at 1. rewrite call_run.
  cbn [logging fst snd]. unfold lift.
  split; [now destruct (convert_object_columns_to_numeric E (df f1))|].
  split; [exact Hc|]. split; [exact Hr|].
  unfold s0 in Hl. cbn [List.length rows df fst] in Hl. lia.
Qed.

(** ** The competitor driver *)

Lemma py_range_cons : forall a b, a < b -> py_range a b = a :: py_range (a + 1) b.
Proof.
  intros a b H. unfold py_range.
  replace (Z.to_nat (b - a)) with (S (Z.to_nat (b - (a + 1)))) by lia.
  cbn [seq map]. f_equal; [lia|].
  rewrite <- seq_shift, map_map. apply map_ext. intros i. lia.
Qed.

(** X8.  The competitor driver has no handler that continues: when
    [games_info_competitors] raises for the first year of the range, the
    driver raises the same exception and no later year is tried; a
    [KeyError] is logged at ERROR level on the way, any other exception
    is not. *)
Theorem games_info_competitor_multiple_propagates :
  forall a b division (st st1 : state W) e,
    a <= b ->
    games_info_competitors E (PInt a) division
      (emit INFO "Fetching competitors info {year} for division {division}"
         [PInt a; division] None
         (emit INFO
            "Fetching competitors info from {year_from} to {year_too} for division {division}"
            [PInt a; PInt b; division] None st))
    = (Err e, st1) ->
    games_info_competitor_multiple E (PInt a) (PInt b) division st
    = (Err e,
       if is_KeyError e
       then emit ERROR "Key missing in response: {e}" [] (Some e) st1
       else st1).
Proof.
  intros a b division st st1 e Hab Hrun.
  unfold games_info_competitor_multiple. unfold bind at 1. cbn [logging].
  unfold run_local, year_range. cbn [as_int]. rewrite py_range_cons by lia.
  unfold bind at 1. unfold try_except. unfold bind at 1. cbn [lift for_each].
  unfold bind at 1. unfold bind at 1. rewrite call_run. cbn [logging fst snd].
  unfold bind at 1. rewrite call_run, Hrun. cbn [fst snd].
  destruct (is_KeyError e).
  - unfold bind at 1. rewrite call_run. reflexivity.
  - reflexivity.
Qed.

(** ** Rows added by the score loops *)

Lemma adds_rows_nothing : forall A (P : row -> Prop) (c : L W A),
  (forall s, df (fst (snd (c s))) = df (fst s)) -> adds_rows P c.
Proof.
  intros A P c H s. exists []. rewrite H, app_nil_r. split; [reflexivity|constructor].
Qed.

Lemma adds_rows_bind : forall A B (P : row -> Prop) (c : L W A) (k : A -> L W B),
  adds_rows P c -> (forall a, adds_rows P (k a)) -> adds_rows P (bind c k).
Proof.
  intros A B P c k Hc Hk s. unfold bind.
  destruct (Hc s) as (x & Hx & Px). destruct (c s) as [[a|e] s1]; cbn [snd] in *.
  - destruct (Hk a s1) as (y & Hy & Py). exists (x ++ y).
    rewrite Hy, Hx, app_assoc. split; [reflexivity|]. apply Forall_app; now split.
  - exists x; now split.
Qed.

Lemma adds_rows_try : forall A (P : row -> Prop) (body : L W A) (h : exn -> L W A),
  adds_rows P body -> (forall e, adds_rows P (h e)) -> adds_rows P (try_except body h).
Proof.
  intros A P body h Hb Hh s. unfold try_except.
  destruct (Hb s) as (x & Hx & Px). destruct (body s) as [[a|e] s1]; cbn [snd] in *.
  - exists x; now split.
  - destruct (Hh e s1) as (y & Hy & Py). exists (x ++ y).
    rewrite Hy, Hx, app_assoc. split; [reflexivity|]. apply Forall_app; now split.
Qed.

Lemma adds_rows_for_each : forall (P : row -> Prop) (body : Z -> L W unit) l,
  (forall x, adds_rows P (body x)) -> adds_rows P (for_each l body).
Proof.
  intros P body l Hb; induction l as [|x l IH].
  - apply adds_rows_nothing. reflexivity.
  - cbn [for_each]. apply adds_rows_bind; [apply Hb|intros _; exact IH].
Qed.

Lemma adds_rows_call : forall A (P : row -> Prop) (c : G W A), adds_rows P (call c).
Proof. intros A P c. apply adds_rows_nothing. intros [f st]. now rewrite call_run. Qed.

Lemma adds_rows_lift : forall A (P : row -> Prop) (r : result A),
  adds_rows P (lift (S := frame * state W) r).
Proof. intros A P r. apply adds_rows_nothing. reflexivity. Qed.

Lemma df_setitem_int : forall t c v,
  isinstance_int v = true -> df_setitem E t c v = Ok (df_set_scalar t c v).
Proof. intros t c v H. destruct v; try discriminate; reflexivity. Qed.

Lemma score_rows_never_raises : forall year cd response idx (s : frame * state W),
  fst (score_rows E year cd response idx s) = Ok tt.
Proof.
  intros. unfold score_rows.
  apply (try_log_never_raises _ ERROR _ (fun _ => [PInt idx])).
Qed.

Lemma score_rows_adds_tagged : forall year cd response idx,
  isinstance_int year = true ->
  adds_rows (fun r => row_get "year" r = year /\ row_get "division" r = PInt cd)
    (score_rows E year cd response idx).
Proof.
  intros year cd response idx Hy. unfold score_rows. apply adds_rows_try.
  2:{ intros e; apply adds_rows_call. }
  do 9 (apply adds_rows_bind; [apply adds_rows_lift|intros ?]).
  rewrite df_setitem_int by exact Hy.
  intros [f st]. unfold bind, lift. cbn [get_df set_df fst snd df concat rows].
  eexists; split; [reflexivity|].
  cbn [df_set_scalar rows]. rewrite map_map. apply Forall_forall.
  intros r Hr. apply in_map_iff in Hr as (r0 & <- & _).
  split; [|apply row_get_set_same].
  rewrite row_get_set_other by discriminate. apply row_get_set_same.
Qed.

Lemma scores_division_adds_tagged : forall year cd,
  isinstance_int year = true ->
  adds_rows (fun r => row_get "year" r = year /\ row_get "division" r = PInt cd)
    (scores_division E year cd).
Proof.
  intros year cd Hy. unfold scores_division.
  apply adds_rows_bind; [apply adds_rows_call|intros _].
  apply adds_rows_bind; [apply adds_rows_call|intros info_response].
  apply adds_rows_bind; [apply adds_rows_call|intros _].
  apply adds_rows_bind; [apply adds_rows_lift|intros pages].
  apply adds_rows_for_each. intros page. unfold scores_page.
  apply adds_rows_bind; [apply adds_rows_call|intros _].
  apply adds_rows_bind; [apply adds_rows_call|intros response].
  apply adds_rows_bind; [apply adds_rows_lift|intros n].
  apply adds_rows_for_each. intros idx. now apply score_rows_adds_tagged.
Qed.

(** X9.  In the score aggregator a failure while one competitor's
    scores are read never leaves the competitor's [try]: a row without a
    'scores' key is logged at ERROR level and the table stays as it was.
    Whatever happens, the rows accumulated so far stay, and every row
    added while a division is processed carries the year asked for and
    that division. *)
Theorem score_rows_isolates_competitor :
  (forall year cd response idx (s : frame * state W),
      fst (score_rows E year cd response idx s) = Ok tt)
  /\ (forall year cd response idx (f : frame) (st : state W) l kv,
         getitem_str response "leaderboardRows" = Ok l ->
         getitem_int l idx = Ok (PDict kv) ->
         assoc "scores" kv = None ->
         score_rows E year cd response idx (f, st)
         = (Ok tt,
            (f, emit ERROR "Error processing competitor index {competitor_idx}: {e}"
                  [PInt idx] (Some (KeyError (PStr "scores"))) st)))
  /\ (forall year cd,
         isinstance_int year = true ->
         adds_rows (fun r => row_get "year" r = year /\ row_get "division" r = PInt cd)
           (scores_division E year cd)).
Proof.
  split; [apply score_rows_never_raises|]. split; [|apply scores_division_adds_tagged].
  intros year cd response idx f st l kv Hl Hr Hk.
  unfold score_rows, try_except. unfold bind at 1. rewrite Hl. cbn [lift].
  unfold bind at 1. rewrite Hr. cbn [lift].
  unfold bind at 1. cbn [getitem_str lift]. rewrite Hk. now rewrite call_run.
Qed.

(** ** What the score aggregator returns *)

Lemma mem_add_column_same : forall c cols, mem c (add_column c cols) = true.
Proof.
  intros c cols; unfold add_column. destruct (mem c cols) eqn:H; [exact H|].
  unfold mem. rewrite existsb_app. cbn. rewrite String.eqb_refl. apply orb_true_r.
Qed.

Lemma apply_column_adds_column : forall f src c t t',
  apply_column f src c t = Ok t' ->
  mem c (columns t') = true /\ List.length (rows t') = List.length (rows t).
Proof.
  intros f src c t t' H. unfold apply_column, df_getitem in H.
  destruct (mem src (columns t)); [|discriminate].
  destruct (map_result f (map (row_get src) (rows t))) as [cells|e] eqn:Hm; [|discriminate].
  inversion H; subst. cbn [df_set_series columns rows]. split; [apply mem_add_column_same|].
  apply map_result_length in Hm. rewrite length_map in *.
  rewrite length_combine, Hm. lia.
Qed.

Lemma games_info_scores_body_transform : forall year dv (s s' : frame * state W) t,
  games_info_scores_body E year dv s = (Ok t, s') ->
  scores_transform E (df (fst (snd (for_each dv (scores_division E year) s)))) = Ok t.
Proof.
  intros year dv s s' t H. unfold games_info_scores_body in H.
  unfold bind at 1 in H.
  destruct (for_each dv (scores_division E year) s) as [[[]|e] [f1 st1]]; [|discriminate].
  unfold bind at 1 in H. rewrite call_run in H. cbn [logging fst snd] in H.
  unfold bind at 1 in H. cbn [get_df fst snd] in H.
  unfold bind at 1 in H. cbn [lift] in H. cbn [fst snd].
  destruct (scores_transform E (df f1)) as [t'|e] eqn:Ht; [|discriminate].
  unfold bind at 1 in H. rewrite call_run in H. cbn [logging fst snd ret] in H.
  now inversion H.
Qed.

(** X10.  A table that [games_info_scores] returns is either the empty
    table without columns, or the table the whole post-processing made
    of what the loops accumulated, which has the column
    scoreIsWeightInKg. *)
Theorem games_info_scores_result_shape : forall year division (st st' : state W) t,
  games_info_scores E year division st = (Ok t, st') ->
  t = empty_table
  \/ (scores_transform E
        (df (fst (snd (for_each (division_value_scores division) (scores_division E year)
                         (frame0, st))))) = Ok t
      /\ mem "scoreIsWeightInKg" (columns t) = true).
Proof.
  intros year division st st' t H. rewrite games_info_scores_run in H.
  destruct (games_info_scores_body E year (division_value_scores division) (frame0, st))
    as [[t1|e] s1] eqn:Hb.
  - inversion H; subst. right.
    pose proof (games_info_scores_body_transform _ _ _ Hb) as Ht0.
    split; [exact Ht0|]. unfold scores_transform in Ht0.
    destruct (transform_rank _); [|discriminate].
    destruct (convert_object_columns_to_numeric E _); [|discriminate].
    now apply apply_column_adds_column in Ht0.
  - inversion H; subst. now left.
Qed.

(** ** The rank after the post-processing of the scores *)

Lemma nth_error_combine : forall A B (l : list A) (l' : list B) i a,
  List.length l = List.length l' -> nth_error l i = Some a ->
  exists b, nth_error (combine l l') i = Some (a, b).
Proof.
  intros A B l; induction l as [|x l IH]; intros l' i a Hlen Hi.
  - destruct i; discriminate.
  - destruct l' as [|y l']; [discriminate|]. destruct i as [|i]; cbn in *.
    + inversion Hi; subst. eauto.
    + apply IH; [now inversion Hlen|exact Hi].
Qed.

Lemma apply_column_nth : forall f src c t t' i r,
  apply_column f src c t = Ok t' -> nth_error (rows t) i = Some r ->
  exists v, nth_error (rows t') i = Some (row_set c v r).
Proof.
  intros f src c t t' i r H Hi. unfold apply_column, df_getitem in H.
  destruct (mem src (columns t)); [|discriminate].
  destruct (map_result f (map (row_get src) (rows t))) as [cells|e] eqn:Hm; [|discriminate].
  inversion H; subst. cbn [df_set_series rows].
  apply map_result_length in Hm. rewrite length_map in Hm.
  destruct (nth_error_combine (rows t) cells i (eq_sym Hm) Hi) as [v Hv].
  exists v. erewrite map_nth_error by exact Hv. reflexivity.
Qed.

(** What [scores_transform] is made of: the recoded rows go to the
    numeric conversion, and its result gets the weight column. *)
Lemma scores_transform_steps : forall t t',
  scores_transform E t = Ok t' ->
  exists cols t2,
    transform_rank t = Ok {| columns := cols; rows := map recode_row (rows t) |}
    /\ convert_object_columns_to_numeric E
         {| columns := cols; rows := map recode_row (rows t) |} = Ok t2
    /\ apply_column (lb_to_kg E) "scoreDisplay" "scoreIsWeightInKg" t2 = Ok t'.
Proof.
  intros t t' H. unfold scores_transform in H.
  destruct (transform_rank t) as [t1|e] eqn:H1; [|discriminate].
  pose proof (transform_rank_rows _ H1) as Hr. destruct t1 as [cols rs]. cbn [rows] in Hr.
  subst rs.
  destruct (convert_object_columns_to_numeric E _) as [t2|e] eqn:H2; [|discriminate].
  exists cols, t2. repeat split; assumption.
Qed.

(** The cells of a row of the accumulated table, after the whole
    post-processing. *)
Lemma scores_transform_cell : forall t t' i r c v v',
  scores_transform E t = Ok t' ->
  nth_error (rows t) i = Some r ->
  c <> "scoreIsWeightInKg" ->
  row_get c (recode_row r) = v ->
  converter_sends E c v v' ->
  exists r', nth_error (rows t') i = Some r' /\ row_get c r' = v'.
Proof.
  intros t t' i r c v v' H Hi Hc Hv Hs.
  destruct (scores_transform_steps _ H) as (cols & t2 & _ & H2 & H3).
  destruct (Hs _ _ i (recode_row r) H2 (map_nth_error recode_row i _ Hi) Hv)
    as (r2 & Hi2 & Hv2).
  destruct (apply_column_nth _ _ _ _ i H3 Hi2) as [w Hw].
  eexists; split; [exact Hw|]. rewrite row_get_set_other by congruence. exact Hv2.
Qed.

(** C7.  The four lines that recode the rank, on a table with a rank
    column and a row, give "CUT", "WD" and "DNF" rows that string as
    rankReason and 0 as rank and leave every other row as it is.  The
    post-processing hands exactly these recoded rows to the numeric
    conversion and adds the weight column to its result.  Hence, in the
    table [games_info_scores] returns after post-processing, a row whose
    raw rank was a sentinel has rank 0 and that sentinel as rankReason,
    and a row with another rank, "5" for one, has the rank the
    conversion makes of it and the rankReason it had, the missing value
    when it had none: provided the numeric conversion, which is not part
    of this module, leaves these cells (0, the sentinel, the old
    rankReason) alone. *)
Theorem scores_post_processing_recodes_rank :
  (forall t,
      mem "rank" (columns t) = true -> rows t <> [] ->
      exists cols,
        transform_rank t = Ok {| columns := cols; rows := map recode_row (rows t) |}
        /\ forall r,
             (forall s, In s rank_sentinels -> row_get "rank" r = PStr s ->
                row_get "rank" (recode_row r) = PInt 0
                /\ row_get "rankReason" (recode_row r) = PStr s)
             /\ ((forall s, In s rank_sentinels -> row_get "rank" r <> PStr s) ->
                   recode_row r = r))
  /\ (forall t t',
         scores_transform E t = Ok t' ->
         exists cols t2,
           transform_rank t = Ok {| columns := cols; rows := map recode_row (rows t) |}
           /\ convert_object_columns_to_numeric E
                {| columns := cols; rows := map recode_row (rows t) |} = Ok t2
           /\ apply_column (lb_to_kg E) "scoreDisplay" "scoreIsWeightInKg" t2 = Ok t')
  /\ (forall year division (st st' : state W) t,
         games_info_scores E year division st = (Ok t, st') ->
         t <> empty_table ->
         forall i r,
           nth_error
             (rows (df (fst (snd (for_each (division_value_scores division)
                                    (scores_division E year) (frame0, st)))))) i = Some r ->
           (forall s,
               In s rank_sentinels -> row_get "rank" r = PStr s ->
               converter_sends E "rank" (PInt 0) (PInt 0) ->
               converter_sends E "rankReason" (PStr s) (PStr s) ->
               exists r',
                 nth_error (rows t) i = Some r'
                 /\ row_get "rank" r' = PInt 0 /\ row_get "rankReason" r' = PStr s)
           /\ (forall v,
                  (forall s, In s rank_sentinels -> row_get "rank" r <> PStr s) ->
                  converter_sends E "rank" (row_get "rank" r) v ->
                  converter_sends E "rankReason" (row_get "rankReason" r)
                    (row_get "rankReason" r) ->
                  exists r',
                    nth_error (rows t) i = Some r'
                    /\ row_get "rank" r' = v
                    /\ row_get "rankReason" r' = row_get "rankReason" r
                    /\ (assoc "rankReason" r = None -> row_get "rankReason" r' = NaN))).
Proof.
  split; [|split; [exact scores_transform_steps|]].
  - intros t Hc Hr. destruct (transform_rank_ok t Hc Hr) as [cols Ht].
    exists cols. split; [exact Ht|]. intros r. split.
    + intros s Hs Hrank. now apply recode_row_sentinel.
    + apply recode_row_other.
  - intros year division st st' t H Hne i r Hi.
    assert (Ht : scores_transform E
                   (df (fst (snd (for_each (division_value_scores division)
                                    (scores_division E year) (frame0, st))))) = Ok t).
    { rewrite games_info_scores_run in H.
      destruct (games_info_scores_body E year (division_value_scores division) (frame0, st))
        as [[t1|e] s1] eqn:Hb.
      - inversion H; subst. exact (games_info_scores_body_transform _ _ _ Hb).
      - inversion H; subst. now elim Hne. }
    split.
    + intros s Hs Hrank H0 Hre.
      destruct (@recode_row_sentinel s r Hs Hrank) as [Hk Hq].
      destruct (@scores_transform_cell _ t i r "rank" _ _ Ht Hi ltac:(discriminate) Hk H0)
        as (r1 & Hi1 & Hv1).
      destruct (@scores_transform_cell _ t i r "rankReason" _ _ Ht Hi ltac:(discriminate)
                  Hq Hre) as (r2 & Hi2 & Hv2).
      rewrite Hi1 in Hi2. inversion Hi2; subst. eauto.
    + intros v Hn Hrk Hre. pose proof (recode_row_other r Hn) as Hsame.
      assert (Hk : row_get "rank" (recode_row r) = row_get "rank" r) by now rewrite Hsame.
      assert (Hq : row_get "rankReason" (recode_row r) = row_get "rankReason" r)
        by now rewrite Hsame.
      destruct (@scores_transform_cell _ t i r "rank" _ _ Ht Hi ltac:(discriminate) Hk Hrk)
        as (r1 & Hi1 & Hv1).
      destruct (@scores_transform_cell _ t i r "rankReason" _ _ Ht Hi ltac:(discriminate)
                  Hq Hre) as (r2 & Hi2 & Hv2).
      rewrite Hi1 in Hi2. inversion Hi2; subst.
      exists r2. repeat split; try assumption.
      intros Ha. rewrite Hv2. unfold row_get. now rewrite Ha.
Qed.

(** ** When the competitor aggregator raises *)

Lemma competitors_division_without_metadata : forall year d (f : frame) (st : state W),
  (forall st0, exists e, fst (games_info E year (PInt d) st0) = Err e) ->
  df (fst (snd (competitors_division E year d (f, st)))) = df f.
Proof.
  intros year d f st H. unfold competitors_division.
  unfold bind at 1. cbn [set_div fst snd df div]. unfold try_except.
  unfold bind at 1. rewrite call_run. cbn [logging fst snd].
  unfold bind at 1. rewrite call_run.
  destruct (H (emit INFO "Processing division {div}" [PInt d] None st)) as [e He].
  rewrite He. now rewrite call_run.
Qed.

Lemma competitors_divisions_without_metadata : forall year ds (s : frame * state W),
  (forall d st0, exists e, fst (games_info E year (PInt d) st0) = Err e) ->
  df (fst (snd (for_each ds (competitors_division E year) s))) = df (fst s).
Proof.
  intros year ds; induction ds as [|d ds IH]; intros [f st] H; [reflexivity|].
  rewrite for_each_cons_continues by apply competitors_division_never_raises.
  rewrite IH by exact H.
  destruct (competitors_division E year d (f, st)) as [r [f1 st1]] eqn:Hd.
  pose proof (competitors_division_without_metadata year d f st (H d)) as Hf.
  rewrite Hd in Hf. exact Hf.
Qed.

Lemma games_json_dump_log_grows : forall year division page (st : state W),
  exists l, log (snd (games_json_dump E year division page st)) = log st ++ l.
Proof.
  intros. unfold games_json_dump, bind, logging, raise, try_except, get, lift, logging_exc.
  destruct (isinstance_int year); cbn [negb];
    [|eexists; cbn [snd emit log]; rewrite <- ?app_assoc; reflexivity].
  destruct (isinstance_int division); cbn [negb];
    [|eexists; cbn [snd emit log]; rewrite <- ?app_assoc; reflexivity].
  destruct (isinstance_int page); cbn [negb];
    [|eexists; cbn [snd emit log]; rewrite <- ?app_assoc; reflexivity].
  cbn [emit world sent log].
  destruct (requests_get E (world st) (request_url year division page)) as [[r|e] w].
  - destruct (raise_for_status r) as [e|].
    + destruct (is_RequestException e); eexists; cbn [snd emit log];
        rewrite <- ?app_assoc; reflexivity.
    + destruct (json r) as [j|e]; [|destruct (is_RequestException e)];
        eexists; cbn [snd emit log]; rewrite <- ?app_assoc; reflexivity.
  - destruct (is_RequestException e); eexists; cbn [snd emit log];
      rewrite <- ?app_assoc; reflexivity.
Qed.

Lemma games_info_log_grows : forall year division (st : state W),
  exists l, log (snd (games_info E year division st)) = log st ++ l.
Proof.
  intros. unfold games_info. unfold bind at 1. cbn [logging]. unfold bind at 1.
  destruct (games_json_dump_log_grows year division (PInt 1)
              (emit INFO "Fetching games info for year {year} and division {division}"
                 [year; division] None st)) as [l Hl].
  destruct (games_json_dump E year division (PInt 1) _) as [[response|e] st1];
    cbn [snd emit log] in Hl.
  - unfold try_except, bind, lift, logging, logging_exc, ret, raise.
    repeat match goal with
           | |- context [match getitem_str ?a ?b with _ => _ end] =>
               destruct (getitem_str a b) as [?|[]]; cbn [is_KeyError]
           | |- context [match py_len ?a with _ => _ end] =>
               destruct (py_len a) as [?|[]]; cbn [is_KeyError]
           end;
      eexists; cbn [snd emit log]; rewrite Hl, <- ?app_assoc; reflexivity.
  - eexists. cbn [snd]. rewrite Hl, <- app_assoc. reflexivity.
Qed.

Lemma competitors_divisions_log_failures : forall year ds (s : frame * state W),
  (forall d st0, exists e, fst (games_info E year (PInt d) st0) = Err e) ->
  (exists l, log (snd (snd (for_each ds (competitors_division E year) s)))
             = log (snd s) ++ l)
  /\ forall d, In d ds ->
       division_failure_logged d (snd (snd (for_each ds (competitors_division E year) s))).
Proof.
  intros year ds; induction ds as [|d ds IH]; intros [f st] H.
  - split; [exists []; cbn; now rewrite app_nil_r|intros d []].
  - rewrite for_each_cons_continues by apply competitors_division_never_raises.
    destruct (H d (emit INFO "Processing division {div}" [PInt d] None st)) as [e He].
    destruct (games_info_log_grows year (PInt d)
                (emit INFO "Processing division {div}" [PInt d] None st)) as [l1 Hl1].
    destruct (games_info E year (PInt d) (emit INFO "Processing division {div}" [PInt d] None st))
      as [r st1] eqn:Hg.
    cbn [fst snd] in He, Hl1. subst r.
    rewrite (competitors_division_metadata_failure _ _ _ _ Hg). cbn [snd].
    destruct (IH ({| df := df f; div := Some d |},
                  emit ERROR "Error processing division {div}: {e}" [PInt d] (Some e) st1) H)
      as [[l2 Hl2] Hin].
    cbn [snd emit log] in Hl2. split.
    + eexists. rewrite Hl2, Hl1. cbn [emit log snd]. rewrite <- !app_assoc. reflexivity.
    + intros d' [<-|Hd']; [|now apply Hin].
      exists e. rewrite Hl2. apply in_or_app; left. apply in_or_app; right. now left.
Qed.

(** X11.  When the metadata request fails for every division,
    [games_info_competitors] catches each failure and logs it at ERROR
    level, and then, the table being empty, raises the [KeyError] for
    'weight' instead of returning an empty table; the log it leaves
    holds the ERROR record of every division of the expansion. *)
Theorem games_info_competitors_without_metadata : forall year division (st : state W),
  (forall d st0, exists e, fst (games_info E year (PInt d) st0) = Err e) ->
  fst (games_info_competitors E year division st) = Err (KeyError (PStr "weight"))
  /\ forall d, In d (division_value_competitors division) ->
       division_failure_logged d (snd (games_info_competitors E year division st)).
Proof.
  intros year division st H.
  pose proof (games_info_competitors_run year division st) as Hrun. cbv zeta in Hrun.
  rewrite competitors_divisions_without_metadata in Hrun by exact H.
  cbn [fst df frame0] in Hrun.
  change (competitors_transform E empty_table)
    with (@Err table (KeyError (PStr "weight"))) in Hrun.
  rewrite Hrun. cbn [fst snd]. split; [reflexivity|].
  intros d Hd.
  exact (proj2 (competitors_divisions_log_failures year
                  (division_value_competitors division) _ H) d Hd).
Qed.

(** X12.  Once its loops have collected a row, [games_info_competitors]
    raises: the transformations turn every overallRank into the list
    [re.findall] returns, which the integer conversion refuses (when
    they have not raised before).  The function returns a table only
    when no row was collected. *)
Theorem games_info_competitors_raises_with_rows : forall year division (st : state W),
  rows (df (fst (snd (for_each (division_value_competitors division)
                        (competitors_division E year)
                        (frame0,
                         emit INFO
                           "Fetching competitor info for year {year} and division {division}"
                           [year; division] None st))))) <> [] ->
  exists e, fst (games_info_competitors E year division st) = Err e.
Proof.
  intros year division st H.
  pose proof (games_info_competitors_run year division st) as Hrun. cbv zeta in Hrun.
  destruct (competitors_transform_raises _ H) as [e He].
  rewrite He in Hrun. rewrite Hrun. exists e. reflexivity.
Qed.

(** ** Year tags of the scores driver *)

Lemma scores_multiple_year_frame : forall division year (f : frame) (st : state W),
  exists t,
    df (fst (snd (scores_multiple_year E division year (f, st))))
    = concat (df f) (df_set_scalar t "year" (PInt year)).
Proof.
  intros division year f st. unfold scores_multiple_year, try_except.
  unfold bind at 1. rewrite call_run. cbn [logging fst snd].
  unfold bind at 1. rewrite call_run.
  destruct (games_info_scores_returns (PInt year) division
              (emit INFO "Fetching games info score for year {year}" [PInt year] None st))
    as [t Ht].
  rewrite Ht. exists t. reflexivity.
Qed.

Lemma scores_multiple_years_tagged : forall a b division ys (s : frame * state W),
  (forall y, In y ys -> a <= y <= b) ->
  Forall (year_tagged a b) (rows (df (fst s))) ->
  Forall (year_tagged a b)
    (rows (df (fst (snd (for_each ys (scores_multiple_year E division) s))))).
Proof.
  intros a b division ys; induction ys as [|y ys IH]; intros [f st] Hys Hr; [exact Hr|].
  rewrite for_each_cons_continues by apply scores_multiple_year_never_raises.
  apply IH; [intros x Hx; apply Hys; now right|].
  destruct (scores_multiple_year_frame division y f st) as [t Ht]. rewrite Ht.
  cbn [concat rows df_set_scalar]. apply Forall_app; split; [exact Hr|].
  apply Forall_forall. intros r Hin. apply in_map_iff in Hin as (r0 & <- & _).
  exists y. split; [apply Hys; now left|apply row_get_set_same].
Qed.

(** X13.  For integer years and an [int] division the scores driver
    returns a table in which every row is tagged with a year of the
    range asked for. *)
Theorem games_info_scores_multiple_tags_years : forall a b division (st : state W),
  isinstance_int division = true ->
  exists t,
    fst (games_info_scores_multiple E (PInt a) (PInt b) division st) = Ok t
    /\ Forall (year_tagged a b) (rows t).
Proof.
  intros a b division st Hd. unfold games_info_scores_multiple.
  cbn [isinstance_int negb]. rewrite Hd. cbn [negb].
  unfold run_local, year_range. cbn [as_int]. unfold bind at 1. cbn [lift].
  pose proof (for_each_never_raises (scores_multiple_year E division) (py_range a (b + 1))
                (scores_multiple_year_never_raises division)
                ({| df := empty_table; div := None |}, st)) as Hok.
  pose proof (@scores_multiple_years_tagged a b division (py_range a (b + 1))
                ({| df := empty_table; div := None |}, st)) as Htag.
  unfold bind at 1.
  destruct (for_each (py_range a (b + 1)) (scores_multiple_year E division)
              ({| df := empty_table; div := None |}, st)) as [[[]|e] [f1 st1]]; [|discriminate].
  cbn [fst snd get_df] in *. exists (df f1). split; [reflexivity|].
  apply Htag; [|constructor].
  intros y Hy. apply py_range_bounds in Hy. lia.
Qed.

End Properties.

(** * The program on the scenarios *)

(** C8, evaluated.  For the overall rank "5T" [re.findall] gives the
    list ['5'], not the string '5'; [astype('int')] refuses a list, and
    the aggregator raises where the integer 5 was to be returned. *)
Theorem overallRank_cleaning_raises :
  competitor_df_temp world_ok one_athlete_page 0
  = Ok {| columns := ["competitorId"; "height"; "weight"; "age"; "overallScore"; "overallRank"];
          rows := [[("competitorId", PStr "7"); ("height", PStr "72 in");
                    ("weight", PStr "205 lb"); ("age", PStr "28");
                    ("overallScore", PStr "880"); ("overallRank", PStr "5T")]] |}
  /\ re_findall_digits (PStr "5T") = Ok (PList [PStr "5"])
  /\ astype_int_cell (PList [PStr "5"])
     = Err (ValueError "setting an array element with a sequence.")
  /\ astype_int_cell (PStr "5") = Ok (PInt 5)
  /\ fst (games_info_competitors world_ok (PInt 2022) (PInt 1) start)
     = Err (ValueError "setting an array element with a sequence.").
Proof. split; [|split; [|split; [|split]]]; vm_compute; reflexivity. Qed.

(** C2 as stated fails: the only page of the division times out, the
    exception is caught and logged, and then a [KeyError] for 'weight'
    leaves the function, the table being empty. *)
Lemma competitors_exception_escapes :
  fst run_page_timeout = Err (KeyError (PStr "weight"))
  /\ existsb (fun l => String.eqb (msg l) "Error processing page {page} for division {div}: {e}")
       (log (snd run_page_timeout)) = true.
Proof. split; vm_compute; reflexivity. Qed.

(** C5 as stated fails: with division 0 the request for division 1 of
    2022 is refused; division 2 of 2022 is never requested and has no
    row, although a request for it would have been answered. *)
Lemma division_2_skipped_after_division_1_fails :
  fst run_first_refused = Ok {| columns := games_info_columns; rows := [] |}
  /\ sent (snd run_first_refused) = [url_2022 1]
  /\ is_Ok (fst (games_info world_first_refused (PInt 2022) (PInt 2) (snd run_first_refused)))
     = true.
Proof. split; [|split]; vm_compute; reflexivity. Qed.

(** C9 as stated fails: the metadata of 2021 lacks 'pagination', a
    [KeyError]; the driver does not raise, goes on to 2022, and returns
    the rows of 2022. *)
Lemma scores_driver_continues_after_KeyError :
  fst (games_info world_first_malformed (PInt 2021) (PInt 1) start)
  = Err (KeyError (PStr "pagination"))
  /\ match fst run_first_malformed with
     | Ok t => map (row_get "year") (rows t) = [PInt 2022; PInt 2022]
     | Err _ => False
     end
  /\ List.length (sent (snd run_first_malformed)) = 3%nat.
Proof. split; [|split]; vm_compute; reflexivity. Qed.

(** ** The theorems at concrete inputs *)

Lemma games_info_scores_fails_soft_witness :
  fst (games_info world_down (PInt 2022) (PInt 1)
         (emit INFO "Processing division {current_division} for year {year}."
            [PInt 1; PInt 2022] None start))
  = Err (RequestException "ConnectionError")
  /\ games_info_scores world_down (PInt 2022) (PInt 1) start
     = (Ok empty_table,
        emit CRITICAL "Error occurred in games_info_scores: {e}" []
          (Some (RequestException "ConnectionError"))
          (snd (games_info world_down (PInt 2022) (PInt 1)
                  (emit INFO "Processing division {current_division} for year {year}."
                     [PInt 1; PInt 2022] None start)))).
Proof.
  split; [vm_compute; reflexivity|].
  apply (proj2 (proj2 (proj2
           (games_info_scores_fails_soft world_down (PInt 2022) (PInt 1) start)))).
  vm_compute; reflexivity.
Defined.

Lemma games_info_competitors_isolates_pages_witness :
  games_json_dump world_page_1_timeout (PInt 2022) (PInt 1) (PInt 1)
    (emit INFO "Fetching page {page} for division {div}" [PInt 1; PInt 1] None after_metadata)
  = (Err (RequestException "Timeout"),
     snd (games_json_dump world_page_1_timeout (PInt 2022) (PInt 1) (PInt 1)
            (emit INFO "Fetching page {page} for division {div}" [PInt 1; PInt 1] None
               after_metadata)))
  /\ competitors_page world_page_1_timeout (PInt 2022) 1 info_of_51 1 (frame0, after_metadata)
     = (Ok tt,
        (frame0,
         emit ERROR "Error processing page {page} for division {div}: {e}"
           [PInt 1; PInt 1] (Some (RequestException "Timeout"))
           (snd (games_json_dump world_page_1_timeout (PInt 2022) (PInt 1) (PInt 1)
                   (emit INFO "Fetching page {page} for division {div}" [PInt 1; PInt 1]
                      None after_metadata)))))
  /\ games_json_dump world_page_1_timeout (PInt 2022) (PInt 1) (PInt 2)
       (emit INFO "Fetching page {page} for division {div}" [PInt 2; PInt 1] None
          (snd after_failed_page_1))
     = (Ok last_page_of_51,
        snd (games_json_dump world_page_1_timeout (PInt 2022) (PInt 1) (PInt 2)
               (emit INFO "Fetching page {page} for division {div}" [PInt 2; PInt 1] None
                  (snd after_failed_page_1))))
  /\ competitors_on_page 2 info_of_51 = Ok [0]
  /\ map_result (competitor_df_temp world_page_1_timeout last_page_of_51) [0]
     = Ok [athlete_table]
  /\ exists later,
       rows (df (fst (snd (for_each ([1] ++ 2 :: [])
                             (competitors_page world_page_1_timeout (PInt 2022) 1 info_of_51)
                             (frame0, after_metadata)))))
       = rows (df (fst after_failed_page_1)) ++ flat_map rows [athlete_table] ++ later.
Proof.
  assert (H0 : games_json_dump world_page_1_timeout (PInt 2022) (PInt 1) (PInt 1)
                 (emit INFO "Fetching page {page} for division {div}" [PInt 1; PInt 1] None
                    after_metadata)
               = (Err (RequestException "Timeout"),
                  snd (games_json_dump world_page_1_timeout (PInt 2022) (PInt 1) (PInt 1)
                         (emit INFO "Fetching page {page} for division {div}"
                            [PInt 1; PInt 1] None after_metadata))))
    by (vm_compute; reflexivity).
  assert (H1 : games_json_dump world_page_1_timeout (PInt 2022) (PInt 1) (PInt 2)
                 (emit INFO "Fetching page {page} for division {div}" [PInt 2; PInt 1] None
                    (snd after_failed_page_1))
               = (Ok last_page_of_51,
                  snd (games_json_dump world_page_1_timeout (PInt 2022) (PInt 1) (PInt 2)
                         (emit INFO "Fetching page {page} for division {div}"
                            [PInt 2; PInt 1] None (snd after_failed_page_1)))))
    by (vm_compute; reflexivity).
  assert (H2 : competitors_on_page 2 info_of_51 = Ok [0]) by reflexivity.
  assert (H3 : map_result (competitor_df_temp world_page_1_timeout last_page_of_51) [0]
               = Ok [athlete_table]) by (vm_compute; reflexivity).
  split; [exact H0|].
  split; [exact (proj1 (proj2 (proj2 (proj2 (proj2 (proj2
             (games_info_competitors_isolates_pages world_page_1_timeout))))))
             (PInt 2022) 1 info_of_51 1 frame0 after_metadata _ _ H0)|].
  split; [exact H1|]. split; [exact H2|]. split; [exact H3|].
  exact (proj1 (proj2 (proj2 (proj2
           (games_info_competitors_isolates_pages world_page_1_timeout))))
           (PInt 2022) 1 info_of_51 [1] 2 [] (frame0, after_metadata)
           last_page_of_51 _ [0] [athlete_table] H1 H2 H3).
Defined.

Lemma games_info_multiple_skips_rest_of_year_witness :
  fst (games_info world_first_refused (PInt 2022) (PInt 1)
         (emit INFO "Processing year {year} and division {div}" [PInt 2022; PInt 1] None start))
  = Err (RequestException "ConnectionError")
  /\ games_info_multiple_year world_first_refused [1; 2] 2022 (frame0, start)
     = (Ok tt,
        ({| df := df frame0; div := Some 1 |},
         emit ERROR "Error processing year {year} and division {div}: {e}"
           [PInt 2022; PInt 1] (Some (RequestException "ConnectionError"))
           (snd (games_info world_first_refused (PInt 2022) (PInt 1)
                   (emit INFO "Processing year {year} and division {div}"
                      [PInt 2022; PInt 1] None start))))).
Proof.
  split; [vm_compute; reflexivity|].
  apply (proj1 (proj2 (proj2 (games_info_multiple_skips_rest_of_year world_first_refused)))).
  vm_compute; reflexivity.
Defined.

Lemma division_expansion_witness :
  0 <> 1 /\ 0 <> 2
  /\ division_value_multiple (PInt 0) = [1; 2]
  /\ division_value_competitors (PInt 0) = [1; 2]
  /\ division_value_scores (PInt 0) = [1; 2].
Proof.
  split; [lia|]. split; [lia|].
  apply (proj1 (proj2 (proj2 (division_expansion world_ok)))); lia.
Defined.

Lemma games_info_scores_multiple_does_not_propagate_witness :
  isinstance_int (PInt 2021) = true /\ isinstance_int (PInt 2022) = true
  /\ isinstance_int (PInt 1) = true
  /\ exists t,
       fst (games_info_scores_multiple world_first_malformed (PInt 2021) (PInt 2022) (PInt 1)
              start) = Ok t.
Proof.
  split; [reflexivity|]. split; [reflexivity|]. split; [reflexivity|].
  apply (proj2 (proj2 (proj2
           (games_info_scores_multiple_does_not_propagate world_first_malformed))));
    reflexivity.
Defined.

Lemma games_json_dump_validation_witness :
  isinstance_int (PInt 2022) && isinstance_int (PInt 7) && isinstance_int (PInt (-3)) = true
  /\ sent (snd (games_json_dump world_down (PInt 2022) (PInt 7) (PInt (-3)) start))
     = sent start ++ [request_url (PInt 2022) (PInt 7) (PInt (-3))].
Proof.
  split; [reflexivity|].
  apply (proj1 (proj2 (proj2
           (games_json_dump_validation world_down (PInt 2022) (PInt 7) (PInt (-3)) start)))).
  reflexivity.
Defined.

Lemma competitors_rows_per_page_witness :
  games_json_dump world_full_page (PInt 2022) (PInt 1) (PInt 1)
    (emit INFO "Fetching page {page} for division {div}" [PInt 1; PInt 1] None after_metadata)
  = (Ok full_first_page,
     snd (games_json_dump world_full_page (PInt 2022) (PInt 1) (PInt 1)
            (emit INFO "Fetching page {page} for division {div}" [PInt 1; PInt 1] None
               after_metadata)))
  /\ map_result (competitor_df_temp world_full_page full_first_page)
       (range0 (if 1 <? 2 then 50 else 60 mod 50)) = Ok (repeat athlete_table 50)
  /\ competitors_page world_full_page (PInt 2022) 1
       {| competition_id := PStr "214"; total_pages := PInt 2;
          total_competitors := PInt 60; total_events := PInt 1 |} 1 (frame0, after_metadata)
     = (Ok tt,
        ({| df := fold_left concat (repeat athlete_table 50) (df frame0); div := div frame0 |},
         snd (games_json_dump world_full_page (PInt 2022) (PInt 1) (PInt 1)
                (emit INFO "Fetching page {page} for division {div}" [PInt 1; PInt 1] None
                   after_metadata))))
  /\ List.length (repeat athlete_table 50)
     = (if 1 <? 2 then 50%nat else Z.to_nat (60 mod 50)).
Proof.
  assert (H1 : games_json_dump world_full_page (PInt 2022) (PInt 1) (PInt 1)
                 (emit INFO "Fetching page {page} for division {div}" [PInt 1; PInt 1] None
                    after_metadata)
               = (Ok full_first_page,
                  snd (games_json_dump world_full_page (PInt 2022) (PInt 1) (PInt 1)
                         (emit INFO "Fetching page {page} for division {div}"
                            [PInt 1; PInt 1] None after_metadata))))
    by (vm_compute; reflexivity).
  assert (H2 : map_result (competitor_df_temp world_full_page full_first_page)
                 (range0 (if 1 <? 2 then 50 else 60 mod 50)) = Ok (repeat athlete_table 50))
    by (vm_compute; reflexivity).
  split; [exact H1|]. split; [exact H2|].
  exact (proj1 (proj2 (proj2 (competitors_rows_per_page world_full_page)))
           (PInt 2022) 1 (PStr "214") (PInt 1) 2 60 1 frame0 after_metadata _
           full_first_page (repeat athlete_table 50) H1 H2).
Defined.

Lemma scores_read_every_competitor_witness :
  1 <= 3 /\ (3 - 1) * 50 <= 110 <= 3 * 50
  /\ Z.of_nat (rows_over_pages (score_rows_on_page 3 110) 3) = 110.
Proof.
  assert (H1 : 1 <= 3) by lia.
  assert (H2 : (3 - 1) * 50 <= 110 <= 3 * 50) by lia.
  split; [exact H1|]. split; [exact H2|].
  exact (scores_read_every_competitor H1 H2).
Defined.

Lemma competitors_read_all_but_a_full_last_page_witness :
  1 <= 2 /\ 100 = 2 * 50
  /\ Z.of_nat (rows_over_pages (competitor_rows_on_page 2 100) 2) = 100 - 50.
Proof.
  assert (H1 : 1 <= 2) by lia.
  assert (H2 : 100 = 2 * 50) by reflexivity.
  split; [exact H1|]. split; [exact H2|].
  exact (proj2 (@competitors_read_all_but_a_full_last_page 2 100 H1) H2).
Defined.

Lemma games_info_requests_page_one_witness :
  isinstance_int (PInt 2022) && isinstance_int (PInt 1) = true
  /\ sent (snd (games_info world_down (PInt 2022) (PInt 1) start))
     = sent start ++ [request_url (PInt 2022) (PInt 1) (PInt 1)].
Proof.
  split; [reflexivity|].
  apply (proj1 (games_info_requests_page_one world_down (PInt 2022) (PInt 1) start)).
  reflexivity.
Defined.

Lemma games_info_on_malformed_response_witness :
  games_json_dump world_first_malformed (PInt 2021) (PInt 1) (PInt 1)
    (emit INFO "Fetching games info for year {year} and division {division}"
       [PInt 2021; PInt 1] None start)
  = (Ok (PDict []),
     snd (games_json_dump world_first_malformed (PInt 2021) (PInt 1) (PInt 1)
            (emit INFO "Fetching games info for year {year} and division {division}"
               [PInt 2021; PInt 1] None start)))
  /\ games_info world_first_malformed (PInt 2021) (PInt 1) start
     = (Err (KeyError (PStr "pagination")),
        emit ERROR "Key missing in response: {e}" [] (Some (KeyError (PStr "pagination")))
          (snd (games_json_dump world_first_malformed (PInt 2021) (PInt 1) (PInt 1)
                  (emit INFO "Fetching games info for year {year} and division {division}"
                     [PInt 2021; PInt 1] None start)))).
Proof.
  assert (H : games_json_dump world_first_malformed (PInt 2021) (PInt 1) (PInt 1)
                (emit INFO "Fetching games info for year {year} and division {division}"
                   [PInt 2021; PInt 1] None start)
              = (Ok (PDict []),
                 snd (games_json_dump world_first_malformed (PInt 2021) (PInt 1) (PInt 1)
                        (emit INFO "Fetching games info for year {year} and division {division}"
                           [PInt 2021; PInt 1] None start))))
    by (vm_compute; reflexivity).
  split; [exact H|].
  exact (proj1 (@games_info_on_malformed_response nat world_first_malformed
                  (PInt 2021) (PInt 1) start _ (PDict []) H) [] eq_refl eq_refl).
Defined.

Lemma games_info_scores_multiple_validates_witness :
  isinstance_int (PStr "2021") && isinstance_int (PInt 2022) && isinstance_int (PInt 1) = false
  /\ exists m,
       games_info_scores_multiple world_ok (PStr "2021") (PInt 2022) (PInt 1) start
       = (Err (TypeError m), start).
Proof.
  split; [reflexivity|].
  apply (@games_info_scores_multiple_validates nat world_ok). reflexivity.
Defined.

Lemma drivers_on_empty_year_range_witness :
  2021 < 2022 /\ isinstance_int (PInt 1) = true
  /\ games_info_scores_multiple world_ok (PInt 2022) (PInt 2021) (PInt 1) start
     = (Ok empty_table, start).
Proof.
  assert (H : 2021 < 2022) by lia.
  split; [exact H|]. split; [reflexivity|].
  exact (proj1 (@drivers_on_empty_year_range nat world_ok 2022 2021 (PInt 1) start H) eq_refl).
Defined.

Lemma games_info_competitor_multiple_propagates_witness :
  2022 <= 2023
  /\ fst (games_info_competitors world_page_timeout (PInt 2022) (PInt 1)
            (emit INFO "Fetching competitors info {year} for division {division}"
               [PInt 2022; PInt 1] None
               (emit INFO
                  "Fetching competitors info from {year_from} to {year_too} for division {division}"
                  [PInt 2022; PInt 2023; PInt 1] None start)))
     = Err (KeyError (PStr "weight"))
  /\ fst (games_info_competitor_multiple world_page_timeout (PInt 2022) (PInt 2023) (PInt 1)
            start)
     = Err (KeyError (PStr "weight")).
Proof.
  assert (H1 : 2022 <= 2023) by lia.
  assert (H2 : games_info_competitors world_page_timeout (PInt 2022) (PInt 1)
                 (emit INFO "Fetching competitors info {year} for division {division}"
                    [PInt 2022; PInt 1] None
                    (emit INFO
                       "Fetching competitors info from {year_from} to {year_too} for division {division}"
                       [PInt 2022; PInt 2023; PInt 1] None start))
               = (Err (KeyError (PStr "weight")),
                  snd (games_info_competitors world_page_timeout (PInt 2022) (PInt 1)
                         (emit INFO "Fetching competitors info {year} for division {division}"
                            [PInt 2022; PInt 1] None
                            (emit INFO
                               "Fetching competitors info from {year_from} to {year_too} for division {division}"
                               [PInt 2022; PInt 2023; PInt 1] None start)))))
    by (vm_compute; reflexivity).
  split; [exact H1|]. split; [now rewrite H2|].
  now rewrite (@games_info_competitor_multiple_propagates nat world_page_timeout
                 2022 2023 (PInt 1) start _ _ H1 H2).
Defined.

Lemma score_rows_isolates_competitor_witness :
  getitem_str page_without_scores "leaderboardRows"
  = Ok (PList [PDict [("entrant", PDict [("competitorId", PStr "7")])]])
  /\ score_rows world_ok (PInt 2022) 1 page_without_scores 0 (frame0, start)
     = (Ok tt,
        (frame0,
         emit ERROR "Error processing competitor index {competitor_idx}: {e}"
           [PInt 0] (Some (KeyError (PStr "scores"))) start)).
Proof.
  split; [reflexivity|].
  exact (proj1 (proj2 (score_rows_isolates_competitor world_ok))
           (PInt 2022) 1 page_without_scores 0 frame0 start
           (PList [PDict [("entrant", PDict [("competitorId", PStr "7")])]])
           [("entrant", PDict [("competitorId", PStr "7")])] eq_refl eq_refl eq_refl).
Defined.

Lemma games_info_scores_result_shape_witness :
  run_scores_ok = (Ok (table_of (fst run_scores_ok)), snd run_scores_ok)
  /\ (table_of (fst run_scores_ok) = empty_table
      \/ (scores_transform world_ok scores_loop_table = Ok (table_of (fst run_scores_ok))
          /\ mem "scoreIsWeightInKg" (columns (table_of (fst run_scores_ok))) = true)).
Proof.
  assert (H : run_scores_ok = (Ok (table_of (fst run_scores_ok)), snd run_scores_ok))
    by (vm_compute; reflexivity).
  split; [exact H|].
  exact (@games_info_scores_result_shape nat world_ok (PInt 2022) (PInt 1) start _ _ H).
Defined.

Lemma scores_post_processing_recodes_rank_witness :
  run_scores_ok = (Ok (table_of (fst run_scores_ok)), snd run_scores_ok)
  /\ table_of (fst run_scores_ok) <> empty_table
  /\ nth_error (rows scores_loop_table) 0 = Some cut_score_row
  /\ In "CUT" rank_sentinels
  /\ row_get "rank" cut_score_row = PStr "CUT"
  /\ converter_sends world_ok "rank" (PInt 0) (PInt 0)
  /\ converter_sends world_ok "rankReason" (PStr "CUT") (PStr "CUT")
  /\ exists r',
       nth_error (rows (table_of (fst run_scores_ok))) 0 = Some r'
       /\ row_get "rank" r' = PInt 0 /\ row_get "rankReason" r' = PStr "CUT".
Proof.
  assert (H1 : run_scores_ok = (Ok (table_of (fst run_scores_ok)), snd run_scores_ok))
    by (vm_compute; reflexivity).
  assert (H2 : table_of (fst run_scores_ok) <> empty_table).
  { intros H. vm_compute in H. discriminate H. }
  assert (H3 : nth_error (rows scores_loop_table) 0 = Some cut_score_row)
    by (vm_compute; reflexivity).
  assert (H4 : In "CUT" rank_sentinels) by (left; reflexivity).
  assert (H5 : row_get "rank" cut_score_row = PStr "CUT") by (vm_compute; reflexivity).
  assert (H6 : forall c v, converter_sends world_ok c v v).
  { intros c v t t' i r Hc Hi Hv. cbn in Hc. inversion Hc; subst. eauto. }
  split; [exact H1|]. split; [exact H2|]. split; [exact H3|]. split; [exact H4|].
  split; [exact H5|]. split; [apply H6|]. split; [apply H6|].
  exact (proj1 (proj2 (proj2 (scores_post_processing_recodes_rank world_ok))
                  (PInt 2022) (PInt 1) start _ _ H1 H2 0%nat cut_score_row H3)
           "CUT" H4 H5 (H6 _ _) (H6 _ _)).
Defined.

Lemma games_info_competitors_without_metadata_witness :
  (forall d st0, exists e, fst (games_info world_down (PInt 2022) (PInt d) st0) = Err e)
  /\ fst (games_info_competitors world_down (PInt 2022) (PInt 0) start)
     = Err (KeyError (PStr "weight"))
  /\ forall d, In d (division_value_competitors (PInt 0)) ->
       division_failure_logged d
         (snd (games_info_competitors world_down (PInt 2022) (PInt 0) start)).
Proof.
  assert (H : forall d st0,
             exists e, fst (games_info world_down (PInt 2022) (PInt d) st0) = Err e).
  { intros d [w s l]. exists (RequestException "ConnectionError").
    destruct w; reflexivity. }
  split; [exact H|].
  exact (@games_info_competitors_without_metadata nat world_down (PInt 2022) (PInt 0) start H).
Defined.

Lemma games_info_competitors_raises_with_rows_witness :
  rows (df (fst (snd (for_each (division_value_competitors (PInt 1))
                        (competitors_division world_ok (PInt 2022))
                        (frame0,
                         emit INFO
                           "Fetching competitor info for year {year} and division {division}"
                           [PInt 2022; PInt 1] None start))))) <> []
  /\ exists e, fst (games_info_competitors world_ok (PInt 2022) (PInt 1) start) = Err e.
Proof.
  assert (H : rows (df (fst (snd (for_each (division_value_competitors (PInt 1))
                        (competitors_division world_ok (PInt 2022))
                        (frame0,
                         emit INFO
                           "Fetching competitor info for year {year} and division {division}"
                           [PInt 2022; PInt 1] None start))))) <> []).
  { intros H. vm_compute in H. discriminate H. }
  split; [exact H|].
  exact (@games_info_competitors_raises_with_rows nat world_ok (PInt 2022) (PInt 1) start H).
Defined.

Lemma games_info_scores_multiple_tags_years_witness :
  isinstance_int (PInt 1) = true
  /\ exists t,
       fst (games_info_scores_multiple world_first_malformed (PInt 2021) (PInt 2022) (PInt 1)
              start) = Ok t
       /\ Forall (year_tagged 2021 2022) (rows t).
Proof.
  split; [reflexivity|].
  apply (@games_info_scores_multiple_tags_years nat world_first_malformed). reflexivity.
Defined.
